(** * Temperature-unit normalisation and conversion (temperatureConversion.ts)

    A shallow embedding of the module's pure functions together with the
    fragments of the ECMAScript string and number semantics they rest on.

    - A JavaScript string is a sequence of UTF-16 code units ([jsstring]).
    - [String.prototype.toUpperCase] works on code points through the Unicode
      upper-case table; the table itself is a parameter ([CaseMapping]) and
      the facts about it that the proofs use are collected in
      [CaseMappingOk].  [latin1_case] is a concrete table (Basic Latin and
      Latin-1) that satisfies them.
    - A JavaScript [number] is abstracted by the class [Number]; it is
      instantiated with exact rationals ([Qc]) and with IEEE 754 binary64
      ([float]), the latter being the arithmetic the program really runs. *)

From Stdlib Require Import List Bool NArith ZArith Lia.
From Stdlib Require Import Ascii String.
From Stdlib Require Import QArith Qcanon Field Lqa.
From Stdlib Require Import Floats.
Import ListNotations.

Local Open Scope N_scope.
Local Open Scope list_scope.

(* ================================================================== *)
(** ** Strings as UTF-16 code units *)

Definition code_unit := N.
Definition jsstring := list code_unit.

(** A string literal of the source whose characters are all ASCII. *)
Definition u16 (s : string) : jsstring := map N_of_ascii (list_ascii_of_string s).

(** The three single-character patterns of [normalizeTemperatureUnit]
    and the replacement character. *)
Definition DEGREE : code_unit := 0xB0.
Definition HYPHEN : code_unit := 0x2D.
Definition SPACE : code_unit := 0x20.
Definition UNDERSCORE : code_unit := 0x5F.

(** [===] on strings. *)
Fixpoint str_eqb (a b : jsstring) : bool :=
  match a, b with
  | [], [] => true
  | x :: a', y :: b' => (x =? y) && str_eqb a' b'
  | _, _ => false
  end.

(** [===] on [string | undefined]. *)
Definition opt_eqb (a b : option jsstring) : bool :=
  match a, b with
  | None, None => true
  | Some x, Some y => str_eqb x y
  | _, _ => false
  end.

(** [Array.prototype.includes] on an array of strings. *)
Definition includes (l : list jsstring) (x : jsstring) : bool :=
  existsb (fun y => str_eqb y x) l.

(* ------------------------------------------------------------------ *)
(** *** Code points *)

Definition is_high_surrogate (c : N) : bool := (0xD800 <=? c) && (c <=? 0xDBFF).
Definition is_low_surrogate (c : N) : bool := (0xDC00 <=? c) && (c <=? 0xDFFF).
Definition is_surrogate (c : N) : bool := (0xD800 <=? c) && (c <=? 0xDFFF).

(** StringToCodePoints: a high surrogate followed by a low surrogate is
    one supplementary code point; every other code unit (a lone
    surrogate included) is a code point by itself. *)
Fixpoint code_points (s : jsstring) : list N :=
  match s with
  | [] => []
  | h :: t =>
      match t with
      | l :: t' =>
          if is_high_surrogate h && is_low_surrogate l
          then (0x10000 + (h - 0xD800) * 0x400 + (l - 0xDC00)) :: code_points t'
          else h :: code_points t
      | [] => [h]
      end
  end.

(** UTF16EncodeCodePoint.  For a code point (at most 0x10FFFF) the
    quotient is below 0x400 and the first [mod] changes nothing; it keeps
    the result within sixteen bits on all of [N]. *)
Definition code_units (cp : N) : jsstring :=
  if cp <? 0x10000 then [cp]
  else [0xD800 + ((cp - 0x10000) / 0x400) mod 0x400; 0xDC00 + (cp - 0x10000) mod 0x400].

(* ------------------------------------------------------------------ *)
(** *** Case conversion *)

Definition ascii_upper (c : N) : N :=
  if (0x61 <=? c) && (c <=? 0x7A) then c - 0x20 else c.

Definition ascii_lower (c : N) : N :=
  if (0x41 <=? c) && (c <=? 0x5A) then c + 0x20 else c.

(** The platform's case tables.  [upper_cp] is the full upper-case
    mapping of one code point (Unicode toUppercase: UnicodeData plus the
    unconditional SpecialCasing entries, so one code point may become
    several); [toLowerCase] is [String.prototype.toLowerCase], which is
    context sensitive and therefore kept at the level of strings. *)
Class CaseMapping := {
  upper_cp : N -> list N;
  toLowerCase : jsstring -> jsstring
}.

(** [String.prototype.toUpperCase]. *)
Definition toUpperCase {cm : CaseMapping} (s : jsstring) : jsstring :=
  flat_map code_units (flat_map upper_cp (code_points s)).

(** Facts about the Unicode tables that the proofs rely on.  Each of
    them holds of the Unicode character database (UnicodeData and the
    unconditional entries of SpecialCasing). *)
Class CaseMappingOk (cm : CaseMapping) : Prop := {
  (** Basic Latin: a-z go to A-Z, nothing else changes. *)
  upper_ascii : forall c, c < 128 -> upper_cp c = [ascii_upper c];
  (** The degree sign has no case. *)
  upper_degree : upper_cp DEGREE = [DEGREE];
  (** What upper-casing yields is not changed by upper-casing again. *)
  upper_stable : forall c d, In d (upper_cp c) -> upper_cp d = [d];
  (** Lone surrogates have no case. *)
  upper_surrogate : forall c, is_surrogate c = true -> upper_cp c = [c];
  (** A supplementary code point keeps a supplementary code point. *)
  upper_astral : forall c, 0x10000 <= c -> exists d, In d (upper_cp c) /\ 0x10000 <= d;
  (** Basic Latin strings: A-Z go to a-z, nothing else changes. *)
  lower_ascii : forall s, Forall (fun c => c < 128) s -> toLowerCase s = map ascii_lower s
}.

(** A concrete table: Basic Latin and the Latin-1 Supplement as Unicode
    has them (sharp s becomes SS, y with diaeresis leaves Latin-1, the
    micro sign becomes the Greek capital mu); code points beyond are
    left alone. *)
Definition latin1_upper (c : N) : list N :=
  if (0x61 <=? c) && (c <=? 0x7A) then [c - 0x20]
  else if c =? 0xB5 then [0x39C]
  else if c =? 0xDF then [0x53; 0x53]
  else if c =? 0xF7 then [c]
  else if (0xE0 <=? c) && (c <=? 0xFE) then [c - 0x20]
  else if c =? 0xFF then [0x178]
  else [c].

(** The code points the Latin-1 table leaves alone. *)
Definition latin1_fixed (d : N) : Prop :=
  ~ (0x61 <= d <= 0x7A) /\ d <> 0xB5 /\ d <> 0xDF /\ d <> 0xFF
  /\ (d = 0xF7 \/ ~ (0xE0 <= d <= 0xFE)).

Definition latin1_lower (c : N) : N :=
  if (0x41 <=? c) && (c <=? 0x5A) then c + 0x20
  else if c =? 0xD7 then c
  else if (0xC0 <=? c) && (c <=? 0xDE) then c + 0x20
  else c.

Definition latin1_case : CaseMapping :=
  {| upper_cp := latin1_upper; toLowerCase := map latin1_lower |}.

(** The Latin-1 table extended with the Deseret block, whose small
    letters U+10428..U+1044F have the capitals U+10400..U+10427; an
    example of a table with case pairs outside the Basic Multilingual
    Plane.  Lower-casing is that of [latin1_case]. *)
Definition deseret_upper (c : N) : list N :=
  if (0x10428 <=? c) && (c <=? 0x1044F) then [c - 0x28] else latin1_upper c.

Definition deseret_case : CaseMapping :=
  {| upper_cp := deseret_upper; toLowerCase := map latin1_lower |}.

(* ------------------------------------------------------------------ *)
(** *** replaceAll and trim *)

Fixpoint starts_with (pat s : jsstring) : bool :=
  match pat, s with
  | [], _ => true
  | p :: pat', c :: s' => (p =? c) && starts_with pat' s'
  | _ :: _, [] => false
  end.

(** Left-to-right scan for non-overlapping occurrences of a non-empty
    pattern; [skip] counts the code units of a match still to be passed. *)
Fixpoint replaceAll_from (pat rep : jsstring) (skip : nat) (s : jsstring) : jsstring :=
  match s with
  | [] => []
  | c :: s' =>
      match skip with
      | S k => replaceAll_from pat rep k s'
      | O =>
          if starts_with pat s
          then rep ++ replaceAll_from pat rep (Nat.pred (List.length pat)) s'
          else c :: replaceAll_from pat rep 0 s'
      end
  end.

(** [String.prototype.replaceAll] with a string pattern and a replacement
    string without dollar patterns.  The empty pattern matches before
    every code unit and at the end. *)
Definition replaceAll (s pat rep : jsstring) : jsstring :=
  match pat with
  | [] => rep ++ flat_map (fun c => c :: rep) s
  | _ :: _ => replaceAll_from pat rep 0 s
  end.

(** ECMAScript WhiteSpace and LineTerminator code units. *)
Definition is_whitespace (c : N) : bool :=
  ((0x09 <=? c) && (c <=? 0x0D))
  || (c =? 0x20) || (c =? 0xA0) || (c =? 0x1680)
  || ((0x2000 <=? c) && (c <=? 0x200A))
  || (c =? 0x2028) || (c =? 0x2029) || (c =? 0x202F) || (c =? 0x205F)
  || (c =? 0x3000) || (c =? 0xFEFF).

Fixpoint trimStart (s : jsstring) : jsstring :=
  match s with
  | [] => []
  | c :: s' => if is_whitespace c then trimStart s' else s
  end.

Definition trimEnd (s : jsstring) : jsstring := rev (trimStart (rev s)).

(** [String.prototype.trim]. *)
Definition trim (s : jsstring) : jsstring := trimEnd (trimStart s).

(* ================================================================== *)
(** ** Numbers *)

(** The arithmetic the converters use: numeric literals, [+], [-], [*]
    and [/]. *)
Class Number (A : Type) := {
  nlit : Z -> A;
  nadd : A -> A -> A;
  nsub : A -> A -> A;
  nmul : A -> A -> A;
  ndiv : A -> A -> A
}.

(** An integer as an exact rational. *)
Definition rational (z : Z) : Qc := Q2Qc (inject_Z z).

(** Exact rational arithmetic. *)
#[export] Instance Number_Qc : Number Qc := {|
  nlit := rational;
  nadd := Qcplus;
  nsub := Qcminus;
  nmul := Qcmult;
  ndiv := Qcdiv
|}.

(** Integer literals as binary64 values (exact below 2^53). *)
Definition float_of_Z (z : Z) : float :=
  match z with
  | Z0 => PrimFloat.zero
  | Zpos _ => PrimFloat.of_uint63 (Uint63.of_Z z)
  | Zneg p => PrimFloat.opp (PrimFloat.of_uint63 (Uint63.of_Z (Zpos p)))
  end.

(** IEEE 754 binary64 with round-to-nearest-even: the JavaScript number. *)
#[export] Instance Number_float : Number float := {|
  nlit := float_of_Z;
  nadd := PrimFloat.add;
  nsub := PrimFloat.sub;
  nmul := PrimFloat.mul;
  ndiv := PrimFloat.div
|}.

(* ================================================================== *)
(** ** The module temperatureConversion.ts *)

Inductive TemperatureConversionTarget := target_none | celsius | fahrenheit.

Inductive TemperatureDeviceConversionMode :=
  follow_system | mode_none | force_celsius | force_fahrenheit.

Record TemperatureUnitConverter (A : Type) := {
  units : list jsstring;
  toCelsius : A -> A
}.

(** The source names this field [units] as well. *)
Record TemperatureOutputConverter (A : Type) := {
  out_units : list jsstring;
  fromCelsius : A -> A
}.

Arguments units {A} _.
Arguments toCelsius {A} _ _.
Arguments out_units {A} _.
Arguments fromCelsius {A} _ _.

Definition DEFAULT_TEMPERATURE_CONVERSION_TARGET : TemperatureConversionTarget := target_none.

Definition DEFAULT_TEMPERATURE_DEVICE_CONVERSION_MODE : TemperatureDeviceConversionMode :=
  follow_system.

(** The option lists of the settings UI; an entry [{ value, label }] is
    a pair. *)
Definition SYSTEM_TEMPERATURE_CONVERSION_OPTIONS
  : list (TemperatureConversionTarget * jsstring) :=
  [ (target_none, u16 "No conversion");
    (celsius, u16 "Celsius");
    (fahrenheit, u16 "Fahrenheit") ].

Definition DEVICE_TEMPERATURE_CONVERSION_OPTIONS
  : list (TemperatureDeviceConversionMode * jsstring) :=
  [ (follow_system, u16 "Follow Matterbridge system settings");
    (mode_none, u16 "No conversion");
    (force_celsius, u16 "Force Celsius");
    (force_fahrenheit, u16 "Force Fahrenheit") ].

(** The alias lists; the source writes each of them out in both tables. *)
Definition CELSIUS_UNITS : list jsstring :=
  [u16 "C"; u16 "CELSIUS"; u16 "DEGREE_CELSIUS"; u16 "DEGREES_CELSIUS"; DEGREE :: u16 "C"].

Definition FAHRENHEIT_UNITS : list jsstring :=
  [u16 "F"; u16 "FAHRENHEIT"; u16 "DEGREE_FAHRENHEIT"; u16 "DEGREES_FAHRENHEIT"; DEGREE :: u16 "F"].

Definition temperatureFromUnits {A} {num : Number A} : list (TemperatureUnitConverter A) :=
  [ {| units := CELSIUS_UNITS; toCelsius := fun value => value |};
    {| units := FAHRENHEIT_UNITS;
       toCelsius := fun value => ndiv (nmul (nsub value (nlit 32)) (nlit 5)) (nlit 9) |} ].

Definition temperatureToUnits {A} {num : Number A} : list (TemperatureOutputConverter A) :=
  [ {| out_units := CELSIUS_UNITS; fromCelsius := fun value => value |};
    {| out_units := FAHRENHEIT_UNITS;
       fromCelsius := fun value => nadd (nmul value (ndiv (nlit 9) (nlit 5))) (nlit 32) |} ].

(** The own properties of the object literal, in source order. *)
Definition NORMALIZED_UNIT_MAP : list (jsstring * jsstring) :=
  [ (u16 "CELSIUS", u16 "C"); (u16 "C", u16 "C");
    (u16 "FAHRENHEIT", u16 "F"); (u16 "F", u16 "F") ].

(** Property read [o[k]] restricted to own properties.  The properties
    inherited from [Object.prototype] all have a lower-case letter in
    their name and are never asked for, see
    [inherited_properties_unreachable]. *)
Fixpoint get_property (o : list (jsstring * jsstring)) (k : jsstring) : option jsstring :=
  match o with
  | [] => None
  | (k', v) :: o' => if str_eqb k' k then Some v else get_property o' k
  end.

(** The names of the properties of [Object.prototype]. *)
Definition OBJECT_PROTOTYPE_KEYS : list jsstring :=
  map u16 [ "constructor"; "hasOwnProperty"; "isPrototypeOf"; "propertyIsEnumerable";
            "toLocaleString"; "toString"; "valueOf"; "__proto__";
            "__defineGetter__"; "__defineSetter__"; "__lookupGetter__";
            "__lookupSetter__" ]%string.

(** A value of type [string | null | undefined]. *)
Inductive unit_arg := undefined | null | str (s : jsstring).

(** A [string | undefined] result passed on as an argument. *)
Definition of_option (o : option jsstring) : unit_arg :=
  match o with
  | Some s => str s
  | None => undefined
  end.

(** Truthiness of a [string | undefined]. *)
Definition truthy (o : option jsstring) : bool :=
  match o with
  | Some (_ :: _) => true
  | _ => false
  end.

(** The local constant [normalized] of [normalizeTemperatureUnit]. *)
Definition normalized_text {cm : CaseMapping} (unit : jsstring) : jsstring :=
  trim (replaceAll (replaceAll (replaceAll (toUpperCase unit) [DEGREE] [])
                               [HYPHEN] [UNDERSCORE])
                   [SPACE] [UNDERSCORE]).

Definition normalizeTemperatureUnit {cm : CaseMapping} (unit : unit_arg) : option jsstring :=
  match unit with
  | undefined | null | str [] => None
  | str s =>
      let normalized := normalized_text s in
      match get_property NORMALIZED_UNIT_MAP normalized with
      | Some v => Some v
      | None => Some normalized
      end
  end.

Definition findFromConverter {cm : CaseMapping} {A} {num : Number A} (unit : unit_arg)
  : option (TemperatureUnitConverter A) :=
  let normalized := normalizeTemperatureUnit unit in
  if negb (truthy normalized) then None
  else match normalized with
       | Some n => find (fun converter => includes (units converter) n) temperatureFromUnits
       | None => None
       end.

Definition findToConverter {cm : CaseMapping} {A} {num : Number A} (unit : unit_arg)
  : option (TemperatureOutputConverter A) :=
  let normalized := normalizeTemperatureUnit unit in
  if negb (truthy normalized) then None
  else match normalized with
       | Some n => find (fun converter => includes (out_units converter) n) temperatureToUnits
       | None => None
       end.

Record ConversionResult (A : Type) := {
  value : A;
  converted : bool;
  unit : option jsstring
}.

Arguments value {A} _.
Arguments converted {A} _.
Arguments unit {A} _.

(** [n === 'C' || n === 'F' ? n : undefined]. *)
Definition C_or_F (n : option jsstring) : option jsstring :=
  if opt_eqb n (Some (u16 "C")) || opt_eqb n (Some (u16 "F")) then n else None.

Definition convertTemperatureValue {cm : CaseMapping} {A} {num : Number A}
  (v : A) (fromUnit toUnit : unit_arg) : ConversionResult A :=
  let normalizedFrom := normalizeTemperatureUnit fromUnit in
  let normalizedTo := normalizeTemperatureUnit toUnit in
  if negb (truthy normalizedTo) || negb (truthy normalizedFrom)
     || opt_eqb normalizedFrom normalizedTo
  then {| value := v; converted := false; unit := C_or_F normalizedFrom |}
  else
    match findFromConverter (of_option normalizedFrom),
          findToConverter (of_option normalizedTo) with
    | Some fromConverter, Some toConverter =>
        let celsiusValue := toCelsius fromConverter v in
        {| value := fromCelsius toConverter celsiusValue;
           converted := true;
           unit := C_or_F normalizedTo |}
    | _, _ => {| value := v; converted := false; unit := C_or_F normalizedFrom |}
    end.

(** [===] on the two string-literal union types. *)
Definition target_eqb (a b : TemperatureConversionTarget) : bool :=
  match a, b with
  | target_none, target_none | celsius, celsius | fahrenheit, fahrenheit => true
  | _, _ => false
  end.

Definition mode_eqb (a b : TemperatureDeviceConversionMode) : bool :=
  match a, b with
  | follow_system, follow_system | mode_none, mode_none
  | force_celsius, force_celsius | force_fahrenheit, force_fahrenheit => true
  | _, _ => false
  end.

Definition resolveTemperatureTargetUnit
  (systemConversion : TemperatureConversionTarget)
  (deviceConversion : TemperatureDeviceConversionMode) : option jsstring :=
  if mode_eqb deviceConversion mode_none then None
  else if mode_eqb deviceConversion force_celsius then Some (u16 "C")
  else if mode_eqb deviceConversion force_fahrenheit then Some (u16 "F")
  else if target_eqb systemConversion celsius then Some (u16 "C")
  else if target_eqb systemConversion fahrenheit then Some (u16 "F")
  else None.

Definition toTemperatureUnitSymbol {cm : CaseMapping} (u : unit_arg) : jsstring :=
  let normalized := normalizeTemperatureUnit u in
  if opt_eqb normalized (Some (u16 "C")) then DEGREE :: u16 "C"
  else if opt_eqb normalized (Some (u16 "F")) then DEGREE :: u16 "F"
  else [].

Definition THERMOSTAT_ATTRIBUTES : list jsstring :=
  map u16 [ "localTemperature"; "outdoorTemperature";
            "occupiedHeatingSetpoint"; "occupiedCoolingSetpoint";
            "unoccupiedHeatingSetpoint"; "unoccupiedCoolingSetpoint";
            "absMinHeatSetpointLimit"; "absMaxHeatSetpointLimit";
            "absMinCoolSetpointLimit"; "absMaxCoolSetpointLimit";
            "minHeatSetpointLimit"; "maxHeatSetpointLimit";
            "minCoolSetpointLimit"; "maxCoolSetpointLimit" ]%string.

Definition isTemperatureAttribute {cm : CaseMapping} (clusterName attributeName : jsstring) : bool :=
  let cluster := toLowerCase clusterName in
  if str_eqb cluster (u16 "temperaturemeasurement")
  then str_eqb attributeName (u16 "measuredValue")
  else if negb (str_eqb cluster (u16 "thermostat")) then false
  else includes THERMOSTAT_ATTRIBUTES attributeName.

(* ================================================================== *)
(** ** Notions used in the statements *)

(** Basic Latin or the degree sign: the characters of every unit label
    that appears in the source and its tests. *)
Definition is_plain (c : code_unit) : bool := (c <? 0x80) || (c =? DEGREE).

Definition plain_arg (u : unit_arg) : bool :=
  match u with
  | str s => forallb is_plain s
  | _ => true
  end.

(** A falsy argument: [undefined], [null] or the empty string. *)
Definition is_missing (u : unit_arg) : bool :=
  match u with
  | undefined | null | str [] => true
  | str (_ :: _) => false
  end.

(** The normaliser as section 4.1 of the specification words it:
    upper-case, remove all degree symbols, replace hyphens and spaces
    with underscores, trim, then look the result up in the table. *)
Definition remove_degree_symbols (s : jsstring) : jsstring :=
  filter (fun c => negb (c =? DEGREE)) s.

Definition underscore_hyphens_and_spaces (s : jsstring) : jsstring :=
  map (fun c => if (c =? HYPHEN) || (c =? SPACE) then UNDERSCORE else c) s.

Definition transformed {cm : CaseMapping} (s : jsstring) : jsstring :=
  trim (underscore_hyphens_and_spaces (remove_degree_symbols (toUpperCase s))).

Definition table_or_self (t : jsstring) : jsstring :=
  if str_eqb t (u16 "CELSIUS") || str_eqb t (u16 "C") then u16 "C"
  else if str_eqb t (u16 "FAHRENHEIT") || str_eqb t (u16 "F") then u16 "F"
  else t.

(** A token that some entry of the converter tables lists.  Both tables
    carry the same two alias lists. *)
Definition known_token (t : jsstring) : bool :=
  includes CELSIUS_UNITS t || includes FAHRENHEIT_UNITS t.

(** The eight tokens of the tables that a normalised text can be (the
    two with a degree sign cannot). *)
Definition TABLE_TEXTS : list jsstring :=
  map u16 [ "C"; "CELSIUS"; "DEGREE_CELSIUS"; "DEGREES_CELSIUS";
            "F"; "FAHRENHEIT"; "DEGREE_FAHRENHEIT"; "DEGREES_FAHRENHEIT" ]%string.

(** A value taken into Celsius by the Fahrenheit entry of the first
    table and out again by the Fahrenheit entry of the second. *)
Definition fahrenheit_pivot {A} {num : Number A} (v : A) : A :=
  nadd (nmul (ndiv (nmul (nsub v (nlit 32)) (nlit 5)) (nlit 9))
             (ndiv (nlit 9) (nlit 5)))
       (nlit 32).

(** Two labels that differ only in the case of Basic Latin letters and
    in the choice among hyphen, space and underscore. *)
Definition is_separator (c : code_unit) : bool :=
  (c =? HYPHEN) || (c =? SPACE) || (c =? UNDERSCORE).




(** The transform an alias list stands for in the first table, and in
    the second. *)
Definition into_celsius {A} {num : Number A} (a : jsstring) (v : A) : A :=
  if includes CELSIUS_UNITS a then v
  else ndiv (nmul (nsub v (nlit 32)) (nlit 5)) (nlit 9).

Definition out_of_celsius {A} {num : Number A} (b : jsstring) (v : A) : A :=
  if includes CELSIUS_UNITS b then v
  else nadd (nmul v (ndiv (nlit 9) (nlit 5))) (nlit 32).

(* ================================================================== *)
(** * Properties *)

(** ** String equality and array membership *)

Lemma str_eqb_eq (a b : jsstring) : str_eqb a b = true <-> a = b.
Proof.
  revert b; induction a as [|x a IH]; intros [|y b]; simpl; try (split; congruence).
  rewrite andb_true_iff, N.eqb_eq, IH. split.
  - intros [-> ->]; reflexivity.
  - intros E; inversion E; auto.
Qed.

Lemma str_eqb_refl (a : jsstring) : str_eqb a a = true.
Proof. apply str_eqb_eq; reflexivity. Qed.

Lemma str_eqb_neq (a b : jsstring) : str_eqb a b = false <-> a <> b.
Proof.
  rewrite <- str_eqb_eq. destruct (str_eqb a b); split; congruence.
Qed.

Lemma opt_eqb_eq (a b : option jsstring) : opt_eqb a b = true <-> a = b.
Proof.
  destruct a as [x|], b as [y|]; simpl; try (split; congruence).
  rewrite str_eqb_eq; split; congruence.
Qed.

Lemma opt_eqb_refl (a : option jsstring) : opt_eqb a a = true.
Proof. apply opt_eqb_eq; reflexivity. Qed.

Lemma includes_In (l : list jsstring) (x : jsstring) : includes l x = true <-> In x l.
Proof.
  unfold includes. rewrite existsb_exists. split.
  - intros (y & Hy & E). apply str_eqb_eq in E. subst; assumption.
  - intros H. exists x. split; [assumption | apply str_eqb_refl].
Qed.

(** ** replaceAll with a one-unit pattern, and trim *)

Lemma replaceAll_single (s : jsstring) (p : code_unit) (rep : jsstring) :
  replaceAll s [p] rep = flat_map (fun c => if p =? c then rep else [c]) s.
Proof.
  unfold replaceAll. induction s as [|c s IH]; simpl; [reflexivity|].
  rewrite andb_true_r. destruct (p =? c); simpl; rewrite IH; reflexivity.
Qed.

Lemma remove_degree_filter (s : jsstring) :
  replaceAll s [DEGREE] [] = filter (fun c => negb (c =? DEGREE)) s.
Proof.
  rewrite replaceAll_single. induction s as [|c s IH]; [reflexivity|].
  cbn [flat_map filter]. rewrite IH, (N.eqb_sym c DEGREE).
  destruct (DEGREE =? c); reflexivity.
Qed.

Lemma replace_unit_map (s : jsstring) (p r : code_unit) :
  replaceAll s [p] [r] = map (fun c => if c =? p then r else c) s.
Proof.
  rewrite replaceAll_single. induction s as [|c s IH]; [reflexivity|].
  cbn [flat_map map]. rewrite IH, (N.eqb_sym c p).
  destruct (p =? c); reflexivity.
Qed.

Lemma trimStart_In (s : jsstring) (x : code_unit) : In x (trimStart s) -> In x s.
Proof.
  induction s as [|c s IH]; simpl; [tauto|].
  destruct (is_whitespace c); simpl; tauto.
Qed.

Lemma trimStart_keeps (s : jsstring) (x : code_unit) :
  In x s -> is_whitespace x = false -> In x (trimStart s).
Proof.
  induction s as [|c s IH]; simpl; [tauto|].
  intros [->|H] W.
  - rewrite W. left; reflexivity.
  - destruct (is_whitespace c); [auto | right; assumption].
Qed.

Lemma trim_In (s : jsstring) (x : code_unit) : In x (trim s) -> In x s.
Proof.
  unfold trim, trimEnd. intros H.
  rewrite <- in_rev in H. apply trimStart_In in H.
  rewrite <- in_rev in H. apply trimStart_In in H. assumption.
Qed.

Lemma trim_keeps (s : jsstring) (x : code_unit) :
  In x s -> is_whitespace x = false -> In x (trim s).
Proof.
  unfold trim, trimEnd. intros H W.
  rewrite <- in_rev. apply trimStart_keeps; [|assumption].
  rewrite <- in_rev. apply trimStart_keeps; assumption.
Qed.

(** [trimStart] either leaves nothing or stops at a unit that is not
    white space. *)
Lemma trimStart_head (s : jsstring) :
  match trimStart s with
  | [] => True
  | c :: _ => is_whitespace c = false
  end.
Proof.
  induction s as [|c s IH]; simpl; [exact I|].
  destruct (is_whitespace c) eqn:W; [assumption | assumption].
Qed.

Lemma trimStart_fixed (s : jsstring) :
  match s with [] => True | c :: _ => is_whitespace c = false end ->
  trimStart s = s.
Proof. destruct s as [|c s]; simpl; [reflexivity | intros ->; reflexivity]. Qed.

Lemma trimStart_idem (s : jsstring) : trimStart (trimStart s) = trimStart s.
Proof. apply trimStart_fixed, trimStart_head. Qed.

(** Removing trailing white space does not uncover leading white space. *)
Lemma trimEnd_head (s : jsstring) :
  match s with [] => True | c :: _ => is_whitespace c = false end ->
  match trimEnd s with [] => True | c :: _ => is_whitespace c = false end.
Proof.
  destruct s as [|c s]; [intros _; exact I|]. intros W.
  unfold trimEnd. simpl rev.
  assert (K : forall r, exists r', trimStart (r ++ [c]) = r' ++ [c]).
  { induction r as [|y r IH]; simpl.
    - rewrite W. exists []; reflexivity.
    - destruct (is_whitespace y); [exact IH | exists (y :: r); reflexivity]. }
  destruct (K (rev s)) as [r' ->]. rewrite rev_app_distr. simpl. assumption.
Qed.

Lemma trim_idem (s : jsstring) : trim (trim s) = trim s.
Proof.
  unfold trim at 1. rewrite trimStart_fixed.
  - unfold trim, trimEnd. rewrite rev_involutive, trimStart_idem. reflexivity.
  - unfold trim. apply trimEnd_head, trimStart_head.
Qed.

(** ** The Latin-1 table satisfies the assumed facts *)

Ltac cases_on_tests :=
  repeat match goal with
         | |- context [N.leb ?a ?b] => destruct (N.leb_spec a b)
         | |- context [N.ltb ?a ?b] => destruct (N.ltb_spec a b)
         | |- context [N.eqb ?a ?b] => destruct (N.eqb_spec a b)
         | H : context [N.leb ?a ?b] |- _ => destruct (N.leb_spec a b)
         | H : context [N.ltb ?a ?b] |- _ => destruct (N.ltb_spec a b)
         | H : context [N.eqb ?a ?b] |- _ => destruct (N.eqb_spec a b)
         end; simpl in *.

(** Tests turned into (in)equalities for [lia]. *)
Ltac bool_facts :=
  repeat match goal with
         | H : andb _ _ = true |- _ => apply andb_true_iff in H as [? ?]
         | H : andb _ _ = false |- _ => apply andb_false_iff in H as [?|?]
         | H : N.leb _ _ = true |- _ => apply N.leb_le in H
         | H : N.leb _ _ = false |- _ => apply N.leb_gt in H
         | H : N.ltb _ _ = true |- _ => apply N.ltb_lt in H
         | H : N.ltb _ _ = false |- _ => apply N.ltb_ge in H
         | H : N.eqb _ _ = true |- _ => apply N.eqb_eq in H
         | H : N.eqb _ _ = false |- _ => apply N.eqb_neq in H
         end.

Lemma latin1_upper_fixed (d : N) : latin1_fixed d -> latin1_upper d = [d].
Proof.
  unfold latin1_fixed, latin1_upper. intros (H1 & H2 & H3 & H4 & H5).
  destruct ((0x61 <=? d) && (d <=? 0x7A)) eqn:E1; [bool_facts; lia|].
  destruct (d =? 0xB5) eqn:E2; [bool_facts; lia|].
  destruct (d =? 0xDF) eqn:E3; [bool_facts; lia|].
  destruct (d =? 0xF7) eqn:E4; [reflexivity|].
  destruct ((0xE0 <=? d) && (d <=? 0xFE)) eqn:E5; [bool_facts; lia|].
  destruct (d =? 0xFF) eqn:E6; [bool_facts; lia|]. reflexivity.
Qed.

Lemma latin1_upper_yields_fixed (c d : N) : In d (latin1_upper c) -> latin1_fixed d.
Proof.
  unfold latin1_fixed, latin1_upper.
  destruct ((0x61 <=? c) && (c <=? 0x7A)) eqn:E1;
    [intros [<-|[]]; bool_facts; lia|].
  destruct (c =? 0xB5) eqn:E2; [intros [<-|[]]; lia|].
  destruct (c =? 0xDF) eqn:E3; [intros [<-|[<-|[]]]; lia|].
  destruct (c =? 0xF7) eqn:E4; [intros [<-|[]]; bool_facts; lia|].
  destruct ((0xE0 <=? c) && (c <=? 0xFE)) eqn:E5;
    [intros [<-|[]]; bool_facts; lia|].
  destruct (c =? 0xFF) eqn:E6; [intros [<-|[]]; lia|].
  intros [<-|[]]. bool_facts; lia.
Qed.

Lemma latin1_upper_stable (c d : N) : In d (latin1_upper c) -> latin1_upper d = [d].
Proof. intros H. apply latin1_upper_fixed. exact (latin1_upper_yields_fixed c d H). Qed.

Lemma latin1_lower_ascii (s : jsstring) :
  Forall (fun c => c < 128) s -> map latin1_lower s = map ascii_lower s.
Proof.
  intros Hs. apply map_ext_in. intros c Hc.
  rewrite Forall_forall in Hs. specialize (Hs c Hc).
  unfold latin1_lower, ascii_lower. cases_on_tests; lia.
Qed.

Lemma latin1_case_ok : CaseMappingOk latin1_case.
Proof.
  constructor; simpl.
  - intros c Hc. unfold latin1_upper, ascii_upper. cases_on_tests; try reflexivity; lia.
  - reflexivity.
  - exact latin1_upper_stable.
  - intros c Hc. unfold is_surrogate in Hc. unfold latin1_upper.
    cases_on_tests; try reflexivity; try discriminate; lia.
  - intros c Hc. exists c. split; [|assumption].
    unfold latin1_upper. cases_on_tests; lia.
  - exact latin1_lower_ascii.
Qed.

(** ** Decoding and upper-casing *)

Lemma code_points_cons_single (h : code_unit) (t : jsstring) :
  is_high_surrogate h = false -> code_points (h :: t) = h :: code_points t.
Proof.
  intros Hh. destruct t as [|l t']; [reflexivity|].
  cbn [code_points]. rewrite Hh. reflexivity.
Qed.

Lemma code_points_bmp (s : jsstring) :
  (forall x, In x s -> is_high_surrogate x = false) -> code_points s = s.
Proof.
  induction s as [|h t IH]; intros Hs; [reflexivity|].
  rewrite code_points_cons_single by (apply Hs; left; reflexivity).
  rewrite IH; [reflexivity|]. intros x Hx; apply Hs; right; assumption.
Qed.

Lemma is_plain_not_high (c : code_unit) : is_plain c = true -> is_high_surrogate c = false.
Proof.
  unfold is_plain, is_high_surrogate, DEGREE. cases_on_tests; intros; congruence || lia.
Qed.

Lemma is_plain_bmp (c : code_unit) : is_plain c = true -> (c <? 0x10000) = true.
Proof.
  unfold is_plain, DEGREE. intros H. apply N.ltb_lt.
  apply orb_true_iff in H as [H|H]; [apply N.ltb_lt in H | apply N.eqb_eq in H]; lia.
Qed.

Lemma is_plain_upper (c : code_unit) : is_plain c = true -> is_plain (ascii_upper c) = true.
Proof.
  unfold is_plain, ascii_upper, DEGREE. cases_on_tests; intros; congruence || lia.
Qed.

(** A code unit produced by the encoder is the code point itself or a
    surrogate. *)
Lemma code_units_In (d : N) (x : code_unit) :
  In x (code_units d) ->
  (x = d /\ d < 0x10000) \/ (is_surrogate x = true /\ 0x10000 <= d).
Proof.
  unfold code_units. destruct (N.ltb_spec d 0x10000) as [Hd|Hd].
  - intros [<-|[]]. left. split; [reflexivity | assumption].
  - assert (B1 : ((d - 0x10000) / 0x400) mod 0x400 < 0x400) by (apply N.mod_lt; lia).
    assert (B2 : (d - 0x10000) mod 0x400 < 0x400) by (apply N.mod_lt; lia).
    revert B1 B2.
    generalize (((d - 0x10000) / 0x400) mod 0x400), ((d - 0x10000) mod 0x400).
    intros hi lo B1 B2.
    intros [<-|[<-|[]]]; right; (split; [|assumption]); unfold is_surrogate;
      apply andb_true_iff; split; apply N.leb_le; lia.
Qed.

Lemma code_units_low (d : N) :
  0x10000 <= d -> exists x, In x (code_units d) /\ is_surrogate x = true.
Proof.
  intros Hd. unfold code_units. destruct (N.ltb_spec d 0x10000) as [Hd'|_]; [lia|].
  assert (B2 : (d - 0x10000) mod 0x400 < 0x400) by (apply N.mod_lt; lia).
  revert B2. generalize ((d - 0x10000) mod 0x400). intros lo B2.
  eexists. split; [right; left; reflexivity|].
  unfold is_surrogate. apply andb_true_iff; split; apply N.leb_le; lia.
Qed.

Section Mapping.

Context (cm : CaseMapping) (ok : CaseMappingOk cm).

Lemma upper_cp_plain (c : code_unit) : is_plain c = true -> upper_cp c = [ascii_upper c].
Proof.
  unfold is_plain. intros Hc. apply orb_true_iff in Hc as [Hc|Hc].
  - apply upper_ascii. apply N.ltb_lt in Hc. lia.
  - apply N.eqb_eq in Hc. subst c. apply upper_degree.
Qed.

(** On Basic Latin and the degree sign [toUpperCase] is the ASCII map. *)
Lemma toUpperCase_plain (s : jsstring) :
  forallb is_plain s = true -> toUpperCase s = map ascii_upper s.
Proof.
  intros Hs. rewrite forallb_forall in Hs. unfold toUpperCase.
  rewrite code_points_bmp by (intros x Hx; apply is_plain_not_high, Hs, Hx).
  induction s as [|c s IH]; [reflexivity|].
  cbn [flat_map map]. rewrite upper_cp_plain by (apply Hs; left; reflexivity).
  cbn [flat_map app].
  rewrite IH by (intros x Hx; apply Hs; right; assumption).
  assert (Hu : is_plain (ascii_upper c) = true)
    by (apply is_plain_upper, Hs; left; reflexivity).
  unfold code_units. rewrite (is_plain_bmp _ Hu). reflexivity.
Qed.

End Mapping.

(** ** The normaliser, step by step *)

Section Normaliser.

Context (cm : CaseMapping).

(** The chain of [replaceAll] calls does what the specification says. *)
Lemma normalized_text_transformed (s : jsstring) : normalized_text s = transformed s.
Proof.
  unfold normalized_text, transformed, underscore_hyphens_and_spaces, remove_degree_symbols.
  rewrite remove_degree_filter, !replace_unit_map, map_map. f_equal.
  apply map_ext. intros c. unfold HYPHEN, SPACE, UNDERSCORE.
  destruct (N.eqb_spec c 0x2D) as [->|]; [reflexivity|]. reflexivity.
Qed.

Lemma str_eqb_sym (a b : jsstring) : str_eqb a b = str_eqb b a.
Proof.
  destruct (str_eqb b a) eqn:E.
  - apply str_eqb_eq in E. subst. apply str_eqb_refl.
  - apply str_eqb_neq. apply str_eqb_neq in E. congruence.
Qed.

Lemma get_property_table (t : jsstring) :
  match get_property NORMALIZED_UNIT_MAP t with Some v => v | None => t end
  = table_or_self t.
Proof.
  unfold NORMALIZED_UNIT_MAP, table_or_self. cbn [get_property].
  rewrite !(str_eqb_sym t).
  destruct (str_eqb (u16 "CELSIUS") t); [reflexivity|].
  destruct (str_eqb (u16 "C") t); [reflexivity|].
  destruct (str_eqb (u16 "FAHRENHEIT") t); [reflexivity|].
  destruct (str_eqb (u16 "F") t); reflexivity.
Qed.

Lemma normalize_str (s : jsstring) :
  normalizeTemperatureUnit (str s)
  = match s with [] => None | _ :: _ => Some (table_or_self (transformed s)) end.
Proof.
  destruct s as [|c s]; [reflexivity|].
  unfold normalizeTemperatureUnit. cbv zeta.
  rewrite <- get_property_table, normalized_text_transformed.
  destruct (get_property NORMALIZED_UNIT_MAP (transformed (c :: s))); reflexivity.
Qed.

Lemma transformed_In (s : jsstring) (x : code_unit) :
  In x (transformed s) -> x = UNDERSCORE \/ In x (toUpperCase s).
Proof.
  unfold transformed, underscore_hyphens_and_spaces, remove_degree_symbols.
  intros H. apply trim_In in H. apply in_map_iff in H as (c & E & Hc).
  apply filter_In in Hc as [Hc _]. revert E.
  destruct ((c =? HYPHEN) || (c =? SPACE)); intros E; [left; congruence | right; subst x; assumption].
Qed.

Lemma transformed_clean (s : jsstring) (x : code_unit) :
  In x (transformed s) -> x <> DEGREE /\ x <> HYPHEN /\ x <> SPACE.
Proof.
  unfold transformed, underscore_hyphens_and_spaces, remove_degree_symbols.
  intros H. apply trim_In in H. apply in_map_iff in H as (c & E & Hc).
  apply filter_In in Hc as [_ Hc]. revert E Hc.
  unfold DEGREE, HYPHEN, SPACE, UNDERSCORE. cases_on_tests; intros; subst; lia || discriminate.
Qed.

Lemma transformed_keeps (s : jsstring) (x : code_unit) :
  In x (toUpperCase s) ->
  x <> DEGREE -> x <> HYPHEN -> x <> SPACE -> is_whitespace x = false ->
  In x (transformed s).
Proof.
  intros H Hd Hh Hs W. unfold transformed. apply trim_keeps; [|assumption].
  unfold underscore_hyphens_and_spaces, remove_degree_symbols.
  apply in_map_iff. exists x. split.
  - apply N.eqb_neq in Hh, Hs. rewrite Hh, Hs. reflexivity.
  - apply filter_In. split; [assumption|]. apply N.eqb_neq in Hd. rewrite Hd. reflexivity.
Qed.

Lemma transformed_trimmed (s : jsstring) : trim (transformed s) = transformed s.
Proof. unfold transformed. apply trim_idem. Qed.

(** A string that is already upper-case, clean and trimmed is left as
    it is. *)
Lemma transformed_fixed (p : jsstring) :
  toUpperCase p = p ->
  (forall x, In x p -> x <> DEGREE /\ x <> HYPHEN /\ x <> SPACE) ->
  trim p = p ->
  transformed p = p.
Proof.
  intros Hu Hc Ht. unfold transformed. rewrite Hu.
  assert (E1 : remove_degree_symbols p = p).
  { unfold remove_degree_symbols. apply forallb_filter_id. apply forallb_forall.
    intros x Hx. destruct (Hc x Hx) as (Hd & _). apply N.eqb_neq in Hd.
    rewrite Hd. reflexivity. }
  assert (E2 : underscore_hyphens_and_spaces p = p).
  { unfold underscore_hyphens_and_spaces. rewrite <- (map_id p) at 2.
    apply map_ext_in. intros x Hx. destruct (Hc x Hx) as (_ & Hh & Hs).
    apply N.eqb_neq in Hh, Hs. rewrite Hh, Hs. reflexivity. }
  rewrite E1, E2. exact Ht.
Qed.

End Normaliser.

(** ** Labels made of Basic Latin and the degree sign

    On such labels every admissible case table agrees with the Latin-1
    one, so the functions can be evaluated. *)

Section Plain.

Context (cm : CaseMapping) (ok : CaseMappingOk cm).

Lemma transformed_plain (s : jsstring) :
  forallb is_plain s = true -> transformed s = @transformed latin1_case s.
Proof.
  intros Hs. unfold transformed.
  rewrite (toUpperCase_plain cm ok s Hs).
  rewrite (toUpperCase_plain latin1_case latin1_case_ok s Hs). reflexivity.
Qed.

Lemma transformed_plain_closed (s : jsstring) :
  forallb is_plain s = true -> forallb is_plain (transformed s) = true.
Proof.
  intros Hs. apply forallb_forall. intros x Hx.
  apply transformed_In in Hx as [->|Hx]; [reflexivity|].
  rewrite (toUpperCase_plain cm ok s Hs) in Hx.
  apply in_map_iff in Hx as (c & <- & Hc).
  apply is_plain_upper. rewrite forallb_forall in Hs. apply Hs, Hc.
Qed.

Lemma table_or_self_plain (t : jsstring) :
  forallb is_plain t = true -> forallb is_plain (table_or_self t) = true.
Proof.
  intros Ht. unfold table_or_self.
  destruct (_ || _); [reflexivity|]. destruct (_ || _); [reflexivity | assumption].
Qed.

Lemma normalize_plain (u : unit_arg) :
  plain_arg u = true ->
  normalizeTemperatureUnit u = @normalizeTemperatureUnit latin1_case u.
Proof.
  destruct u as [| |s]; try reflexivity. intros Hs. simpl in Hs.
  rewrite !normalize_str. destruct s; [reflexivity|].
  rewrite transformed_plain by assumption. reflexivity.
Qed.

Lemma normalize_plain_closed (u : unit_arg) :
  plain_arg u = true -> plain_arg (of_option (normalizeTemperatureUnit u)) = true.
Proof.
  destruct u as [| |s]; try reflexivity. intros Hs. simpl in Hs.
  rewrite normalize_str. destruct s as [|c s]; [reflexivity|].
  simpl. apply table_or_self_plain, transformed_plain_closed, Hs.
Qed.

Lemma findFromConverter_plain {A} {num : Number A} (u : unit_arg) :
  plain_arg u = true ->
  findFromConverter u = @findFromConverter latin1_case A _ u.
Proof.
  intros Hu. unfold findFromConverter. rewrite normalize_plain by assumption. reflexivity.
Qed.

Lemma findToConverter_plain {A} {num : Number A} (u : unit_arg) :
  plain_arg u = true ->
  findToConverter u = @findToConverter latin1_case A _ u.
Proof.
  intros Hu. unfold findToConverter. rewrite normalize_plain by assumption. reflexivity.
Qed.

Lemma convert_plain {A} {num : Number A} (v : A) (fromUnit toUnit : unit_arg) :
  plain_arg fromUnit = true -> plain_arg toUnit = true ->
  convertTemperatureValue v fromUnit toUnit
  = @convertTemperatureValue latin1_case A _ v fromUnit toUnit.
Proof.
  intros Hf Ht. unfold convertTemperatureValue. cbv zeta.
  rewrite findFromConverter_plain by (apply normalize_plain_closed, Hf).
  rewrite findToConverter_plain by (apply normalize_plain_closed, Ht).
  rewrite !(normalize_plain fromUnit) by assumption.
  rewrite !(normalize_plain toUnit) by assumption.
  reflexivity.
Qed.

Lemma symbol_plain (u : unit_arg) :
  plain_arg u = true ->
  toTemperatureUnitSymbol u = @toTemperatureUnitSymbol latin1_case u.
Proof.
  intros Hu. unfold toTemperatureUnitSymbol. rewrite normalize_plain by assumption.
  reflexivity.
Qed.

End Plain.

(* ================================================================== *)
(** * The target resolver *)

(** C6. The device mode overrides the system target: ['none'] gives
    [undefined] whatever the system says, ['force_celsius'] gives ['C'],
    ['force_fahrenheit'] gives ['F'], and ['follow_system'] gives ['C'],
    ['F'] or [undefined] for the system targets ['celsius'],
    ['fahrenheit'] and ['none']. *)
Theorem resolve_device_overrides_system :
  (forall systemTarget, resolveTemperatureTargetUnit systemTarget mode_none = None)
  /\ (forall systemTarget,
        resolveTemperatureTargetUnit systemTarget force_celsius = Some (u16 "C"))
  /\ (forall systemTarget,
        resolveTemperatureTargetUnit systemTarget force_fahrenheit = Some (u16 "F"))
  /\ resolveTemperatureTargetUnit celsius follow_system = Some (u16 "C")
  /\ resolveTemperatureTargetUnit fahrenheit follow_system = Some (u16 "F")
  /\ resolveTemperatureTargetUnit target_none follow_system = None.
Proof.
  repeat split; try (intros systemTarget; destruct systemTarget); reflexivity.
Qed.

(** The result depends on the system target only under ['follow_system']. *)
Lemma resolve_ignores_system (s1 s2 : TemperatureConversionTarget)
  (d : TemperatureDeviceConversionMode) :
  d <> follow_system ->
  resolveTemperatureTargetUnit s1 d = resolveTemperatureTargetUnit s2 d.
Proof. destruct d; [congruence | reflexivity ..]. Qed.

(* ================================================================== *)
(** * The attribute classifier *)

Lemma ascii_lower_upper (c : code_unit) : ascii_lower (ascii_upper c) = ascii_lower c.
Proof. unfold ascii_lower, ascii_upper. cases_on_tests; lia. Qed.

Lemma ascii_lower_idem (c : code_unit) : ascii_lower (ascii_lower c) = ascii_lower c.
Proof. unfold ascii_lower. cases_on_tests; lia. Qed.

Lemma ascii_upper_range (c : code_unit) : c < 128 -> ascii_upper c < 128.
Proof. unfold ascii_upper. cases_on_tests; lia. Qed.

Lemma ascii_lower_range (c : code_unit) : c < 128 -> ascii_lower c < 128.
Proof. unfold ascii_lower. cases_on_tests; lia. Qed.

(** Two Basic Latin cluster names that differ only in the case of their
    letters are classified alike. *)
Lemma isTemperatureAttribute_case (cm : CaseMapping) (ok : CaseMappingOk cm)
  (c1 c2 a : jsstring) :
  Forall (fun x => x < 128) c1 -> Forall (fun x => x < 128) c2 ->
  map ascii_lower c1 = map ascii_lower c2 ->
  isTemperatureAttribute c1 a = isTemperatureAttribute c2 a.
Proof.
  intros H1 H2 E. unfold isTemperatureAttribute. cbv zeta.
  rewrite (lower_ascii c1 H1), (lower_ascii c2 H2), E. reflexivity.
Qed.

(** C7. [isTemperatureAttribute] is true exactly for the attribute
    ['measuredValue'] of a cluster whose lower-cased name is
    ['temperaturemeasurement'] and for the fourteen listed attributes of
    a cluster whose lower-cased name is ['thermostat']; the cluster name
    is compared without regard to case, the attribute name exactly. *)
Theorem isTemperatureAttribute_exact (cm : CaseMapping) (ok : CaseMappingOk cm) :
  (forall clusterName attributeName,
      isTemperatureAttribute clusterName attributeName = true <->
      (toLowerCase clusterName = u16 "temperaturemeasurement"
       /\ attributeName = u16 "measuredValue")
      \/ (toLowerCase clusterName = u16 "thermostat"
          /\ In attributeName THERMOSTAT_ATTRIBUTES))
  /\ (List.length THERMOSTAT_ATTRIBUTES = 14%nat /\ NoDup THERMOSTAT_ATTRIBUTES)
  /\ (forall cluster1 cluster2 attributeName,
        toLowerCase cluster1 = toLowerCase cluster2 ->
        isTemperatureAttribute cluster1 attributeName
        = isTemperatureAttribute cluster2 attributeName)
  /\ (forall clusterName attributeName,
        Forall (fun x => x < 128) clusterName ->
        isTemperatureAttribute (map ascii_upper clusterName) attributeName
        = isTemperatureAttribute clusterName attributeName
        /\ isTemperatureAttribute (map ascii_lower clusterName) attributeName
           = isTemperatureAttribute clusterName attributeName)
  /\ (isTemperatureAttribute (u16 "TemperatureMeasurement") (u16 "measuredValue") = true
      /\ isTemperatureAttribute (u16 "THERMOSTAT") (u16 "localTemperature") = true
      /\ isTemperatureAttribute (u16 "TemperatureMeasurement") (u16 "MeasuredValue") = false
      /\ isTemperatureAttribute (u16 "Thermostat") (u16 "LocalTemperature") = false
      /\ isTemperatureAttribute (u16 "Thermostat") (u16 "measuredValue") = false
      /\ isTemperatureAttribute (u16 "TemperatureMeasurement") (u16 "localTemperature") = false).
Proof.
  split; [|split; [|split; [|split]]].
  - intros c a. unfold isTemperatureAttribute. cbv zeta.
    destruct (str_eqb (toLowerCase c) (u16 "temperaturemeasurement")) eqn:E1.
    + apply str_eqb_eq in E1. rewrite str_eqb_eq. split.
      * intros ->. left. split; [assumption | reflexivity].
      * intros [[_ Ha]|[Hc _]]; [assumption|].
        rewrite E1 in Hc. discriminate Hc.
    + apply str_eqb_neq in E1.
      destruct (str_eqb (toLowerCase c) (u16 "thermostat")) eqn:E2; cbn [negb].
      * apply str_eqb_eq in E2. rewrite includes_In. split.
        -- intros Ha. right. split; assumption.
        -- intros [[Hc _]|[_ Ha]]; [contradiction | assumption].
      * apply str_eqb_neq in E2. split; [discriminate|].
        intros [[Hc _]|[Hc _]]; contradiction.
  - split; [reflexivity|].
    repeat (constructor; [cbv; intuition discriminate|]). constructor.
  - intros c1 c2 a E. unfold isTemperatureAttribute. cbv zeta. rewrite E. reflexivity.
  - intros c a Hc. split; apply isTemperatureAttribute_case; trivial.
    + apply Forall_map. eapply Forall_impl; [|exact Hc]. apply ascii_upper_range.
    + rewrite map_map. apply map_ext. apply ascii_lower_upper.
    + apply Forall_map. eapply Forall_impl; [|exact Hc]. apply ascii_lower_range.
    + rewrite map_map. apply map_ext. apply ascii_lower_idem.
  - unfold isTemperatureAttribute. cbv zeta.
    rewrite !lower_ascii by (repeat constructor).
    repeat split; reflexivity.
Qed.

Lemma isTemperatureAttribute_exact_witness :
  CaseMappingOk latin1_case
  /\ isTemperatureAttribute (cm := latin1_case)
       (u16 "TemperatureMeasurement") (u16 "measuredValue") = true
  /\ isTemperatureAttribute (cm := latin1_case)
       (u16 "Thermostat") (u16 "LocalTemperature") = false.
Proof.
  split; [exact latin1_case_ok|].
  pose proof (isTemperatureAttribute_exact latin1_case latin1_case_ok) as T.
  destruct T as (_ & _ & _ & _ & T1 & _ & _ & T4 & _).
  split; [exact T1 | exact T4].
Defined.

(* ================================================================== *)
(** * The unit normaliser *)

Lemma normalize_None (cm : CaseMapping) (u : unit_arg) :
  normalizeTemperatureUnit u = None <-> is_missing u = true.
Proof.
  destruct u as [| |s]; try (simpl; split; reflexivity).
  rewrite normalize_str. destruct s; simpl; split; reflexivity || discriminate.
Qed.

(** C9. [normalizeTemperatureUnit] is defined on every string, on
    [null] and on [undefined]; it returns [undefined] exactly for the
    falsy arguments, and for a non-empty string it returns the string
    upper-cased, without degree symbols, with hyphens and spaces turned
    into underscores, and trimmed, sent through the exact-match table
    when that table has it as a key. *)
Theorem normalize_total_and_stepwise (cm : CaseMapping) :
  (normalizeTemperatureUnit undefined = None
   /\ normalizeTemperatureUnit null = None
   /\ normalizeTemperatureUnit (str []) = None)
  /\ (forall u, normalizeTemperatureUnit u = None <->
                u = undefined \/ u = null \/ u = str [])
  /\ (forall s, s <> [] ->
        normalizeTemperatureUnit (str s)
        = Some (table_or_self
                  (trim (underscore_hyphens_and_spaces
                           (remove_degree_symbols (toUpperCase s))))))
  /\ (forall t,
        table_or_self t
        = match get_property NORMALIZED_UNIT_MAP t with Some v => v | None => t end).
Proof.
  split; [repeat split|split; [|split]].
  - intros u. rewrite normalize_None.
    destruct u as [| |[|c s]]; simpl; split; auto; try discriminate.
    intros [H|[H|H]]; discriminate H.
  - intros s Hs. rewrite normalize_str. destruct s; [contradiction | reflexivity].
  - intros t. symmetry. apply get_property_table.
Qed.

(** What the normaliser returns never names an inherited property of
    the table object: such names contain a lower-case letter, and
    upper-casing leaves none.  Reading [NORMALIZED_UNIT_MAP[normalized]]
    therefore only ever sees the four own properties. *)
Lemma inherited_properties_unreachable (cm : CaseMapping) (ok : CaseMappingOk cm)
  (s : jsstring) :
  ~ In (normalized_text s) OBJECT_PROTOTYPE_KEYS.
Proof.
  assert (L : forall x, In x (normalized_text s) -> ~ (0x61 <= x <= 0x7A)).
  { intros x Hx Hr. rewrite normalized_text_transformed in Hx.
    apply transformed_In in Hx as [->|Hx]; [unfold UNDERSCORE in Hr; lia|].
    unfold toUpperCase in Hx.
    apply in_flat_map in Hx as (d & Hd & Hx).
    apply in_flat_map in Hd as (c & _ & Hd).
    apply code_units_In in Hx as [[-> _]|[Hx _]];
      [|unfold is_surrogate in Hx; apply andb_true_iff in Hx as [Hx _];
        apply N.leb_le in Hx; lia]. pose proof (upper_stable c d Hd) as St.
    rewrite upper_ascii in St by lia.
    unfold ascii_upper in St. revert St. cases_on_tests; intros St; inversion St; lia. }
  intros Hin.
  assert (K : forallb (existsb (fun x => (0x61 <=? x) && (x <=? 0x7A)))
                      OBJECT_PROTOTYPE_KEYS = true) by reflexivity.
  rewrite forallb_forall in K. specialize (K _ Hin).
  apply existsb_exists in K as (x & Hx & Hr).
  apply andb_true_iff in Hr as [H1 H2]. apply N.leb_le in H1, H2.
  exact (L x Hx (conj H1 H2)).
Qed.

Ltac eval_plain cm ok :=
  try rewrite (normalize_plain cm ok) by reflexivity;
  try rewrite (symbol_plain cm ok) by reflexivity;
  try rewrite (convert_plain cm ok) by reflexivity.

(** C1, as the code has it.  ['C'], ['CELSIUS'] and the degree sign
    followed by ['C'] normalise to ['C'], and likewise for Fahrenheit;
    the aliases ['DEGREE_CELSIUS'], ['DEGREES_CELSIUS'],
    ['DEGREE_FAHRENHEIT'] and ['DEGREES_FAHRENHEIT'] are returned as they
    are: only the converter tables know them. *)
Theorem normalize_aliases (cm : CaseMapping) (ok : CaseMappingOk cm) :
  (normalizeTemperatureUnit (str (u16 "C")) = Some (u16 "C")
   /\ normalizeTemperatureUnit (str (u16 "CELSIUS")) = Some (u16 "C")
   /\ normalizeTemperatureUnit (str (DEGREE :: u16 "C")) = Some (u16 "C")
   /\ normalizeTemperatureUnit (str (u16 "DEGREE_CELSIUS")) = Some (u16 "DEGREE_CELSIUS")
   /\ normalizeTemperatureUnit (str (u16 "DEGREES_CELSIUS")) = Some (u16 "DEGREES_CELSIUS"))
  /\ (normalizeTemperatureUnit (str (u16 "F")) = Some (u16 "F")
      /\ normalizeTemperatureUnit (str (u16 "FAHRENHEIT")) = Some (u16 "F")
      /\ normalizeTemperatureUnit (str (DEGREE :: u16 "F")) = Some (u16 "F")
      /\ normalizeTemperatureUnit (str (u16 "DEGREE_FAHRENHEIT"))
         = Some (u16 "DEGREE_FAHRENHEIT")
      /\ normalizeTemperatureUnit (str (u16 "DEGREES_FAHRENHEIT"))
         = Some (u16 "DEGREES_FAHRENHEIT")).
Proof.
  repeat split; eval_plain cm ok; reflexivity.
Qed.

Lemma normalize_aliases_witness :
  CaseMappingOk latin1_case
  /\ normalizeTemperatureUnit (cm := latin1_case) (str (u16 "CELSIUS")) = Some (u16 "C").
Proof.
  split; [exact latin1_case_ok|].
  exact (proj1 (proj2 (proj1 (normalize_aliases latin1_case latin1_case_ok)))).
Defined.

(** C1 as stated fails: not every alias of the Celsius converter entry
    normalises to ['C']. *)
Lemma normalize_alias_DEGREE_CELSIUS_not_C :
  In (u16 "DEGREE_CELSIUS") CELSIUS_UNITS
  /\ normalizeTemperatureUnit (cm := latin1_case) (str (u16 "DEGREE_CELSIUS"))
     <> Some (u16 "C").
Proof.
  split; [right; right; left; reflexivity|].
  vm_compute. discriminate.
Qed.

(* ================================================================== *)
(** * The symbol formatter *)

(** C8. [toTemperatureUnitSymbol] gives the degree sign followed by
    ['C'] or ['F'] when the argument normalises to ['C'] or ['F'] and the
    empty string otherwise; normalising the symbol gives back the
    normalised unit. *)
Theorem symbol_inverts_normalization (cm : CaseMapping) (ok : CaseMappingOk cm)
  (u : unit_arg) :
  (normalizeTemperatureUnit u = Some (u16 "C") ->
     toTemperatureUnitSymbol u = DEGREE :: u16 "C")
  /\ (normalizeTemperatureUnit u = Some (u16 "F") ->
        toTemperatureUnitSymbol u = DEGREE :: u16 "F")
  /\ (normalizeTemperatureUnit u <> Some (u16 "C") ->
      normalizeTemperatureUnit u <> Some (u16 "F") ->
        toTemperatureUnitSymbol u = [])
  /\ (normalizeTemperatureUnit u = Some (u16 "C")
      \/ normalizeTemperatureUnit u = Some (u16 "F") ->
        normalizeTemperatureUnit (str (toTemperatureUnitSymbol u))
        = normalizeTemperatureUnit u).
Proof.
  unfold toTemperatureUnitSymbol. cbv zeta.
  destruct (opt_eqb (normalizeTemperatureUnit u) (Some (u16 "C"))) eqn:EC;
    [|destruct (opt_eqb (normalizeTemperatureUnit u) (Some (u16 "F"))) eqn:EF].
  - apply opt_eqb_eq in EC. rewrite EC. repeat split; try congruence; try discriminate.
    intros _. eval_plain cm ok. reflexivity.
  - apply opt_eqb_eq in EF. rewrite EF. repeat split; try congruence; try discriminate.
    intros _. eval_plain cm ok. reflexivity.
  - assert (NC : normalizeTemperatureUnit u <> Some (u16 "C"))
      by (intros E; apply opt_eqb_eq in E; congruence).
    assert (NF : normalizeTemperatureUnit u <> Some (u16 "F"))
      by (intros E; apply opt_eqb_eq in E; congruence).
    repeat split; try contradiction. intros [E|E]; contradiction.
Qed.

Lemma symbol_inverts_normalization_witness :
  CaseMappingOk latin1_case
  /\ normalizeTemperatureUnit (cm := latin1_case)
       (str (toTemperatureUnitSymbol (cm := latin1_case) (str (u16 "fahrenheit"))))
     = normalizeTemperatureUnit (cm := latin1_case) (str (u16 "fahrenheit")).
Proof.
  split; [exact latin1_case_ok|].
  apply (symbol_inverts_normalization latin1_case latin1_case_ok (str (u16 "fahrenheit"))).
  right. reflexivity.
Defined.

(* ================================================================== *)
(** * The value converter *)

(** C4. Converting from a unit to the very same unit label never
    converts: the value comes back as it is, [converted] is false, and
    [unit] is the normalised label when that is ['C'] or ['F'] and
    [undefined] otherwise.  This holds for every label, [null],
    [undefined] and the empty string included, and for every kind of
    number. *)
Theorem convert_same_unit (cm : CaseMapping) (A : Type) (num : Number A)
  (v : A) (u : unit_arg) :
  convertTemperatureValue v u u
  = {| value := v;
       converted := false;
       unit := match normalizeTemperatureUnit u with
               | Some t => if str_eqb t (u16 "C") || str_eqb t (u16 "F")
                           then Some t else None
               | None => None
               end |}.
Proof.
  unfold convertTemperatureValue. cbv zeta.
  rewrite opt_eqb_refl, orb_true_r. f_equal.
  destruct (normalizeTemperatureUnit u) as [t|]; reflexivity.
Qed.

(** The two conversions proper, for every kind of number. *)
Lemma convert_C_to_F (cm : CaseMapping) (ok : CaseMappingOk cm)
  (A : Type) (num : Number A) (v : A) :
  convertTemperatureValue v (str (u16 "C")) (str (u16 "F"))
  = {| value := nadd (nmul v (ndiv (nlit 9) (nlit 5))) (nlit 32);
       converted := true;
       unit := Some (u16 "F") |}.
Proof. eval_plain cm ok. reflexivity. Qed.

Lemma convert_F_to_C (cm : CaseMapping) (ok : CaseMappingOk cm)
  (A : Type) (num : Number A) (v : A) :
  convertTemperatureValue v (str (u16 "F")) (str (u16 "C"))
  = {| value := ndiv (nmul (nsub v (nlit 32)) (nlit 5)) (nlit 9);
       converted := true;
       unit := Some (u16 "C") |}.
Proof. eval_plain cm ok. reflexivity. Qed.

Lemma rational_5_nonzero : rational 5 <> 0%Qc.
Proof.
  intros E. apply (f_equal (fun x => Qnum (this x))) in E. vm_compute in E. discriminate E.
Qed.

Lemma rational_9_nonzero : rational 9 <> 0%Qc.
Proof.
  intros E. apply (f_equal (fun x => Qnum (this x))) in E. vm_compute in E. discriminate E.
Qed.

(** Through Celsius and back, in exact arithmetic. *)
Lemma pivot_C_F_C (v : Qc) :
  (((v * (rational 9 / rational 5) + rational 32) - rational 32) * rational 5 / rational 9
   = v)%Qc.
Proof. field. split; [exact rational_5_nonzero | exact rational_9_nonzero]. Qed.

Lemma pivot_F_C_F (v : Qc) :
  (((v - rational 32) * rational 5 / rational 9) * (rational 9 / rational 5) + rational 32
   = v)%Qc.
Proof. field. split; [exact rational_5_nonzero | exact rational_9_nonzero]. Qed.

(** C2. In exact rational arithmetic, converting a value from ['C'] to
    ['F'] and the result back from ['F'] to ['C'] gives the value again. *)
Theorem convert_round_trip (cm : CaseMapping) (ok : CaseMappingOk cm) (v : Qc) :
  value (convertTemperatureValue
           (value (convertTemperatureValue v (str (u16 "C")) (str (u16 "F"))))
           (str (u16 "F")) (str (u16 "C")))
  = v.
Proof.
  rewrite (convert_C_to_F cm ok), (convert_F_to_C cm ok). cbn [value].
  exact (pivot_C_F_C v).
Qed.

Lemma convert_round_trip_witness :
  CaseMappingOk latin1_case
  /\ value (convertTemperatureValue (cm := latin1_case)
              (value (convertTemperatureValue (cm := latin1_case)
                        (rational 37) (str (u16 "C")) (str (u16 "F"))))
              (str (u16 "F")) (str (u16 "C")))
     = rational 37.
Proof.
  split; [exact latin1_case_ok|].
  exact (convert_round_trip latin1_case latin1_case_ok (rational 37)).
Defined.

(** In binary64 the same round trip is only approximate: 37 comes back
    as the next representable number above it. *)
Lemma round_trip_binary64_inexact :
  value (convertTemperatureValue (cm := latin1_case)
           (value (convertTemperatureValue (cm := latin1_case)
                     37%float (str (u16 "C")) (str (u16 "F"))))
           (str (u16 "F")) (str (u16 "C")))
  = PrimFloat.next_up 37%float.
Proof. vm_compute. reflexivity. Qed.

Lemma Qc_eq_by_value (a b : Qc) : Qeq a b -> a = b.
Proof. apply Qc_is_canon. Qed.

(** C3. The three fixed points of the tests' kind: 0 C is 32 F, 212 F
    is 100 C and -40 C is -40 F, each reported as converted and labelled
    with the target unit; they hold in exact arithmetic and in binary64
    alike.  A value goes into Celsius as (v - 32) * 5/9 and out of
    Celsius as v * 9/5 + 32. *)
Theorem convert_fixed_points (cm : CaseMapping) (ok : CaseMappingOk cm) :
  (convertTemperatureValue (rational 0) (str (u16 "C")) (str (u16 "F"))
   = {| value := rational 32; converted := true; unit := Some (u16 "F") |}
   /\ convertTemperatureValue (rational 212) (str (u16 "F")) (str (u16 "C"))
      = {| value := rational 100; converted := true; unit := Some (u16 "C") |}
   /\ convertTemperatureValue (rational (-40)) (str (u16 "C")) (str (u16 "F"))
      = {| value := rational (-40); converted := true; unit := Some (u16 "F") |})
  /\ (convertTemperatureValue 0%float (str (u16 "C")) (str (u16 "F"))
      = {| value := 32%float; converted := true; unit := Some (u16 "F") |}
      /\ convertTemperatureValue 212%float (str (u16 "F")) (str (u16 "C"))
         = {| value := 100%float; converted := true; unit := Some (u16 "C") |}
      /\ convertTemperatureValue (-40)%float (str (u16 "C")) (str (u16 "F"))
         = {| value := (-40)%float; converted := true; unit := Some (u16 "F") |})
  /\ (forall v : Qc,
        convertTemperatureValue v (str (u16 "F")) (str (u16 "C"))
        = {| value := ((v - rational 32) * (rational 5 / rational 9))%Qc;
             converted := true; unit := Some (u16 "C") |}
        /\ convertTemperatureValue v (str (u16 "C")) (str (u16 "F"))
           = {| value := (v * (rational 9 / rational 5) + rational 32)%Qc;
                converted := true; unit := Some (u16 "F") |}).
Proof.
  split; [|split].
  - rewrite !(convert_C_to_F cm ok), (convert_F_to_C cm ok).
    repeat split; f_equal; apply Qc_eq_by_value; vm_compute; reflexivity.
  - rewrite !(convert_C_to_F cm ok), (convert_F_to_C cm ok).
    repeat split; vm_compute; reflexivity.
  - intros v. rewrite (convert_C_to_F cm ok), (convert_F_to_C cm ok).
    split; f_equal. cbn [ndiv nmul nsub nlit Number_Qc].
    field. exact rational_9_nonzero.
Qed.

Lemma convert_fixed_points_witness :
  CaseMappingOk latin1_case
  /\ convertTemperatureValue (cm := latin1_case) (-40)%float (str (u16 "C")) (str (u16 "F"))
     = {| value := (-40)%float; converted := true; unit := Some (u16 "F") |}.
Proof.
  split; [exact latin1_case_ok|].
  exact (proj2 (proj2 (proj1 (proj2 (convert_fixed_points latin1_case latin1_case_ok))))).
Defined.

(* ================================================================== *)
(** * Normalising a normalised token again

    [convertTemperatureValue] hands the normalised tokens to the two
    lookup helpers, which normalise their argument once more.  The
    normaliser is not idempotent on arbitrary strings (removing a degree
    sign between two lone surrogates joins them into one code point that
    may have an upper case), but a token outside the tables stays
    outside. *)

Section Renormalise.

Context (cm : CaseMapping) (ok : CaseMappingOk cm).

Lemma toUpperCase_first (s : jsstring) (cp : N) (rest : list N) (x : code_unit) :
  code_points s = cp :: rest ->
  In x (flat_map code_units (upper_cp cp)) -> In x (toUpperCase s).
Proof.
  intros E Hx. unfold toUpperCase. rewrite E. cbn [flat_map].
  rewrite flat_map_app. apply in_or_app. left. assumption.
Qed.

Lemma toUpperCase_cons_single (h : code_unit) (t : jsstring) :
  is_high_surrogate h = false ->
  toUpperCase (h :: t) = flat_map code_units (upper_cp h) ++ toUpperCase t.
Proof.
  intros Hh. unfold toUpperCase. rewrite code_points_cons_single by assumption.
  cbn [flat_map]. apply flat_map_app.
Qed.

(** A unit of an upper-cased string that is not a surrogate is a code
    point that upper-casing leaves alone. *)
Lemma upper_unit_fixed (s : jsstring) (x : code_unit) :
  In x (toUpperCase s) -> is_surrogate x = false ->
  upper_cp x = [x] /\ x < 0x10000.
Proof.
  intros Hx Hs. unfold toUpperCase in Hx.
  apply in_flat_map in Hx as (d & Hd & Hx).
  apply in_flat_map in Hd as (c & _ & Hd).
  apply code_units_In in Hx as [[-> Hr]|[Hx _]]; [|congruence].
  split; [exact (upper_stable c d Hd) | exact Hr].
Qed.

Lemma surrogate_range (x : code_unit) :
  is_surrogate x = true -> 0xD800 <= x <= 0xDFFF.
Proof.
  unfold is_surrogate. intros H. apply andb_true_iff in H as [H1 H2].
  apply N.leb_le in H1, H2. split; assumption.
Qed.

Lemma surrogate_not_whitespace (x : code_unit) :
  is_surrogate x = true -> is_whitespace x = false.
Proof.
  intros H. apply surrogate_range in H. unfold is_whitespace.
  repeat (apply orb_false_intro); try (apply N.eqb_neq; lia);
    apply andb_false_iff; right; apply N.leb_gt; lia.
Qed.

Lemma high_is_surrogate (x : code_unit) :
  is_high_surrogate x = true -> is_surrogate x = true.
Proof. unfold is_high_surrogate, is_surrogate. cases_on_tests; intros; congruence || lia. Qed.

(** If upper-casing a string of fixed units yields no surrogate, it
    yields the string itself. *)
Lemma toUpperCase_fixed (p : jsstring) :
  (forall x, In x p -> is_surrogate x = false -> upper_cp x = [x] /\ x < 0x10000) ->
  (forall x, In x (toUpperCase p) -> is_surrogate x = false) ->
  toUpperCase p = p.
Proof.
  induction p as [|h t IH]; intros Hfix Hout; [reflexivity|].
  destruct (is_surrogate h) eqn:Hs.
  - (* a surrogate in [p] leaves a surrogate in the result *)
    exfalso.
    assert (E : exists cp rest x,
               code_points (h :: t) = cp :: rest
               /\ In x (flat_map code_units (upper_cp cp)) /\ is_surrogate x = true).
    { destruct t as [|l t'].
      - exists h, [], h. split; [reflexivity|].
        rewrite (upper_surrogate h Hs). cbn [flat_map]. rewrite app_nil_r.
        apply surrogate_range in Hs as Hr. unfold code_units.
        destruct (N.ltb_spec h 0x10000); [|lia]. split; [left; reflexivity | assumption].
      - cbn [code_points].
        destruct (is_high_surrogate h && is_low_surrogate l) eqn:Hp.
        + set (cp := 0x10000 + (h - 0xD800) * 0x400 + (l - 0xDC00)).
          destruct (upper_astral cp) as (d & Hd & Hr); [unfold cp; lia|].
          destruct (code_units_low d Hr) as (x & Hx & Hxs).
          exists cp, (code_points t'), x. split; [reflexivity|]. split; [|assumption].
          apply in_flat_map. exists d. split; assumption.
        + exists h, (code_points (l :: t')), h. split; [reflexivity|].
          rewrite (upper_surrogate h Hs). cbn [flat_map]. rewrite app_nil_r.
          apply surrogate_range in Hs as Hr. unfold code_units.
          destruct (N.ltb_spec h 0x10000); [|lia]. split; [left; reflexivity | assumption]. }
    destruct E as (cp & rest & x & E & Hx & Hxs).
    pose proof (Hout x (toUpperCase_first _ _ _ _ E Hx)) as Hn. congruence.
  - assert (Hh : is_high_surrogate h = false).
    { destruct (is_high_surrogate h) eqn:E; [|reflexivity].
      apply high_is_surrogate in E. congruence. }
    destruct (Hfix h (or_introl eq_refl) Hs) as [Hu Hr].
    rewrite toUpperCase_cons_single in * by assumption.
    rewrite Hu in *. cbn [flat_map] in *. unfold code_units in *.
    destruct (N.ltb_spec h 0x10000); [|lia]. cbn [app] in *.
    f_equal. apply IH.
    + intros x Hx. apply Hfix. right; assumption.
    + intros x Hx. apply Hout. right; assumption.
Qed.

End Renormalise.

Section Tokens.

Context (cm : CaseMapping) (ok : CaseMappingOk cm).

Lemma table_or_self_cases (t : jsstring) :
  table_or_self t = t \/ In t [u16 "CELSIUS"; u16 "C"; u16 "FAHRENHEIT"; u16 "F"].
Proof.
  unfold table_or_self.
  destruct (str_eqb t (u16 "CELSIUS")) eqn:E1.
  { apply str_eqb_eq in E1. right. left. symmetry; exact E1. }
  destruct (str_eqb t (u16 "C")) eqn:E2.
  { apply str_eqb_eq in E2. right. right. left. symmetry; exact E2. }
  destruct (str_eqb t (u16 "FAHRENHEIT")) eqn:E3.
  { apply str_eqb_eq in E3. right. do 2 right. left. symmetry; exact E3. }
  destruct (str_eqb t (u16 "F")) eqn:E4.
  { apply str_eqb_eq in E4. right. do 3 right. left. symmetry; exact E4. }
  left. reflexivity.
Qed.

Lemma known_token_texts (t : jsstring) :
  known_token (table_or_self t) = true -> ~ In DEGREE t -> In t TABLE_TEXTS.
Proof.
  intros K Hd.
  assert (T : forallb (fun e => includes TABLE_TEXTS e || existsb (N.eqb DEGREE) e)
                      (CELSIUS_UNITS ++ FAHRENHEIT_UNITS) = true)
    by (vm_compute; reflexivity).
  rewrite forallb_forall in T.
  assert (Hin' : In t (CELSIUS_UNITS ++ FAHRENHEIT_UNITS)).
  { destruct (table_or_self_cases t) as [E|Hin].
    - rewrite E in K. unfold known_token in K. apply orb_true_iff in K.
      rewrite !includes_In in K. apply in_or_app. exact K.
    - apply includes_In.
      destruct Hin as [<-|[<-|[<-|[<-|[]]]]]; vm_compute; reflexivity. }
  specialize (T t Hin'). apply orb_true_iff in T as [T|T].
  - apply includes_In. exact T.
  - exfalso. apply Hd. apply existsb_exists in T as (x & Hx & E).
    apply N.eqb_eq in E. subst x. exact Hx.
Qed.

Lemma table_texts_known (t : jsstring) :
  In t TABLE_TEXTS ->
  known_token (table_or_self t) = true
  /\ forallb (fun x => negb (is_surrogate x)) t = true.
Proof.
  intros Hin.
  assert (T : forallb (fun e => known_token (table_or_self e)
                                && forallb (fun x => negb (is_surrogate x)) e)
                      TABLE_TEXTS = true)
    by (vm_compute; reflexivity).
  rewrite forallb_forall in T. specialize (T t Hin).
  apply andb_true_iff in T. exact T.
Qed.

(** A normalised text that normalises into the tables is its own
    normalisation. *)
Lemma transformed_again (s : jsstring) :
  In (transformed (transformed s)) TABLE_TEXTS ->
  transformed (transformed s) = transformed s.
Proof.
  intros Hq. apply table_texts_known in Hq as [_ Hq]. rewrite forallb_forall in Hq.
  apply transformed_fixed.
  - apply (toUpperCase_fixed cm ok).
    + intros x Hx Hs. apply transformed_In in Hx as [->|Hx].
      * split; [|unfold UNDERSCORE; lia].
        rewrite upper_ascii by (unfold UNDERSCORE; lia). reflexivity.
      * exact (upper_unit_fixed cm ok s x Hx Hs).
    + intros y Hy. destruct (is_surrogate y) eqn:Hs; [exfalso | reflexivity].
      apply surrogate_range in Hs as Hr.
      assert (Hin : In y (transformed (transformed s))).
      { apply transformed_keeps; trivial;
          try (unfold DEGREE, HYPHEN, SPACE; lia).
        apply surrogate_not_whitespace. assumption. }
      apply Hq in Hin. rewrite Hs in Hin. discriminate Hin.
  - apply transformed_clean.
  - apply transformed_trimmed.
Qed.

(** A token that no table lists is still unlisted after being
    normalised again. *)
Lemma unknown_token_stays_unknown (u : unit_arg) (t t' : jsstring) :
  normalizeTemperatureUnit u = Some t ->
  known_token t = false ->
  normalizeTemperatureUnit (str t) = Some t' ->
  known_token t' = false.
Proof.
  intros Hu Kt Ht.
  destruct u as [| |s]; try discriminate Hu.
  rewrite normalize_str in Hu. destruct s as [|c s]; [discriminate Hu|].
  injection Hu as Hu. set (p := transformed (c :: s)) in *.
  assert (Ep : t = p).
  { subst t. unfold table_or_self in *.
    destruct (_ || _); [discriminate Kt|]. destruct (_ || _); [discriminate Kt|].
    reflexivity. }
  rewrite normalize_str in Ht. destruct t as [|c' t0]; [discriminate Ht|].
  injection Ht as Ht. rewrite Ep in Ht.
  destruct (known_token t') eqn:K'; [exfalso | reflexivity].
  rewrite <- Ht in K'.
  assert (Hq : In (transformed p) TABLE_TEXTS).
  { apply known_token_texts; [assumption|].
    intros Hd. apply transformed_clean in Hd. tauto. }
  pose proof (transformed_again _ Hq) as Efix. fold p in Efix.
  rewrite Efix in Hq. apply table_texts_known in Hq as [Hq _].
  rewrite <- Hu in Kt. congruence.
Qed.

Lemma find_from_known {A} {num : Number A} (t : jsstring) :
  find (fun converter => includes (units converter) t) (temperatureFromUnits (A := A)) = None
  <-> known_token t = false.
Proof.
  unfold temperatureFromUnits, known_token. cbn [find units].
  destruct (includes CELSIUS_UNITS t); [split; discriminate|].
  destruct (includes FAHRENHEIT_UNITS t); split; discriminate || reflexivity.
Qed.

Lemma find_to_known {A} {num : Number A} (t : jsstring) :
  find (fun converter => includes (out_units converter) t) (temperatureToUnits (A := A)) = None
  <-> known_token t = false.
Proof.
  unfold temperatureToUnits, known_token. cbn [find out_units].
  destruct (includes CELSIUS_UNITS t); [split; discriminate|].
  destruct (includes FAHRENHEIT_UNITS t); split; discriminate || reflexivity.
Qed.

Lemma findFromConverter_unknown {A} {num : Number A} (u : unit_arg) (t : jsstring) :
  normalizeTemperatureUnit u = Some t -> known_token t = false ->
  findFromConverter (A := A) (str t) = None.
Proof.
  intros Hu Kt. unfold findFromConverter. cbv zeta.
  destruct (normalizeTemperatureUnit (str t)) as [t'|] eqn:Ht; [|reflexivity].
  destruct (negb (truthy (Some t'))); [reflexivity|].
  apply find_from_known. exact (unknown_token_stays_unknown u t t' Hu Kt Ht).
Qed.

Lemma findToConverter_unknown {A} {num : Number A} (u : unit_arg) (t : jsstring) :
  normalizeTemperatureUnit u = Some t -> known_token t = false ->
  findToConverter (A := A) (str t) = None.
Proof.
  intros Hu Kt. unfold findToConverter. cbv zeta.
  destruct (normalizeTemperatureUnit (str t)) as [t'|] eqn:Ht; [|reflexivity].
  destruct (negb (truthy (Some t'))); [reflexivity|].
  apply find_to_known. exact (unknown_token_stays_unknown u t t' Hu Kt Ht).
Qed.

End Tokens.

(* ================================================================== *)
(** * Units the converter does not know *)

Lemma truthy_Some (o : option jsstring) :
  truthy o = true -> exists t, o = Some t /\ t <> [].
Proof.
  destruct o as [[|c t]|]; try discriminate. intros _.
  exists (c :: t). split; [reflexivity | discriminate].
Qed.

(** C5. When the source or the target unit is missing ([null],
    [undefined] or empty) or normalises to a token that no entry of the
    corresponding converter table lists (['K'], ['kelvin'], ...), the
    result is not converted and carries the input value.  The function
    returns a result for every input; it has no failure. *)
Theorem convert_unsupported_unchanged (cm : CaseMapping) (ok : CaseMappingOk cm)
  (A : Type) (num : Number A) :
  (forall (v : A) (fromUnit toUnit : unit_arg),
      is_missing fromUnit = true
      \/ is_missing toUnit = true
      \/ (forall t, normalizeTemperatureUnit fromUnit = Some t ->
                    find (fun converter => includes (units converter) t)
                         (temperatureFromUnits (A := A)) = None)
      \/ (forall t, normalizeTemperatureUnit toUnit = Some t ->
                    find (fun converter => includes (out_units converter) t)
                         (temperatureToUnits (A := A)) = None) ->
      converted (convertTemperatureValue v fromUnit toUnit) = false
      /\ value (convertTemperatureValue v fromUnit toUnit) = v)
  /\ (forall v : A,
        convertTemperatureValue v (str (u16 "K")) (str (u16 "F"))
        = {| value := v; converted := false; unit := None |}
        /\ convertTemperatureValue v (str (u16 "kelvin")) (str (u16 "C"))
           = {| value := v; converted := false; unit := None |}
        /\ convertTemperatureValue v (str (u16 "C")) (str (u16 "K"))
           = {| value := v; converted := false; unit := Some (u16 "C") |}
        /\ convertTemperatureValue v (str (u16 "F")) (str (u16 "kelvin"))
           = {| value := v; converted := false; unit := Some (u16 "F") |}
        /\ convertTemperatureValue v undefined (str (u16 "F"))
           = {| value := v; converted := false; unit := None |}
        /\ convertTemperatureValue v (str (u16 "C")) null
           = {| value := v; converted := false; unit := Some (u16 "C") |}
        /\ convertTemperatureValue v (str []) (str (u16 "F"))
           = {| value := v; converted := false; unit := None |}).
Proof.
  split.
  - intros v f t H. unfold convertTemperatureValue. cbv zeta.
    destruct (negb (truthy (normalizeTemperatureUnit t))
              || negb (truthy (normalizeTemperatureUnit f))
              || opt_eqb (normalizeTemperatureUnit f) (normalizeTemperatureUnit t)) eqn:G;
      [split; reflexivity|].
    destruct (findFromConverter (of_option (normalizeTemperatureUnit f))) eqn:FF;
      [|split; reflexivity].
    destruct (findToConverter (of_option (normalizeTemperatureUnit t))) eqn:FT;
      [|split; reflexivity].
    exfalso.
    apply orb_false_iff in G as [G _]. apply orb_false_iff in G as [Gt Gf].
    apply negb_false_iff in Gt, Gf.
    apply truthy_Some in Gt as (tt & Et & _). apply truthy_Some in Gf as (tf & Ef & _).
    destruct H as [H|[H|[H|H]]].
    + apply (normalize_None cm) in H. congruence.
    + apply (normalize_None cm) in H. congruence.
    + specialize (H tf Ef). apply find_from_known in H.
      rewrite Ef in FF. cbn [of_option] in FF.
      rewrite (findFromConverter_unknown cm ok f tf Ef H) in FF. discriminate FF.
    + specialize (H tt Et). apply find_to_known in H.
      rewrite Et in FT. cbn [of_option] in FT.
      rewrite (findToConverter_unknown cm ok t tt Et H) in FT. discriminate FT.
  - intros v. repeat split; eval_plain cm ok; reflexivity.
Qed.

Lemma convert_unsupported_unchanged_witness :
  CaseMappingOk latin1_case
  /\ converted (convertTemperatureValue (cm := latin1_case)
                  (rational 10) (str (u16 "kelvin")) (str (u16 "F"))) = false
  /\ value (convertTemperatureValue (cm := latin1_case)
              (rational 10) (str (u16 "kelvin")) (str (u16 "F"))) = rational 10.
Proof.
  split; [exact latin1_case_ok|].
  apply (proj1 (convert_unsupported_unchanged latin1_case latin1_case_ok Qc Number_Qc)).
  right. right. left. intros t Ht. vm_compute in Ht.
  injection Ht as <-. reflexivity.
Defined.

(* ================================================================== *)
(** * Two aliases of one unit family *)

(** C10, as the code has it.  When source and target normalise to two
    different tokens of the same alias list, the result is reported as
    converted.  Within the Celsius family the value is the input itself.
    Within the Fahrenheit family the value is the input taken to Celsius
    and back, ((v - 32) * 5 / 9) * (9 / 5) + 32, which is the input in
    exact arithmetic. *)
Theorem convert_between_aliases (cm : CaseMapping) (ok : CaseMappingOk cm) :
  (forall (A : Type) (num : Number A) (v : A) (fromUnit toUnit : unit_arg) (a b : jsstring),
      normalizeTemperatureUnit fromUnit = Some a ->
      normalizeTemperatureUnit toUnit = Some b ->
      a <> b -> In a CELSIUS_UNITS -> In b CELSIUS_UNITS ->
      convertTemperatureValue v fromUnit toUnit
      = {| value := v; converted := true;
           unit := if str_eqb b (u16 "C") || str_eqb b (u16 "F") then Some b else None |})
  /\ (forall (A : Type) (num : Number A) (v : A) (fromUnit toUnit : unit_arg) (a b : jsstring),
        normalizeTemperatureUnit fromUnit = Some a ->
        normalizeTemperatureUnit toUnit = Some b ->
        a <> b -> In a FAHRENHEIT_UNITS -> In b FAHRENHEIT_UNITS ->
        convertTemperatureValue v fromUnit toUnit
        = {| value := fahrenheit_pivot v; converted := true;
             unit := if str_eqb b (u16 "C") || str_eqb b (u16 "F") then Some b else None |})
  /\ (forall v : Qc, fahrenheit_pivot v = v)
  /\ (forall (A : Type) (num : Number A) (v : A),
        convertTemperatureValue v (str (u16 "DEGREE_CELSIUS")) (str (u16 "C"))
        = {| value := v; converted := true; unit := Some (u16 "C") |})
  /\ (forall v : Qc,
        convertTemperatureValue v (str (u16 "degrees fahrenheit")) (str (u16 "F"))
        = {| value := v; converted := true; unit := Some (u16 "F") |}).
Proof.
  assert (P : forall v : Qc, fahrenheit_pivot v = v).
  { intros v. unfold fahrenheit_pivot. cbn [ndiv nmul nsub nadd nlit Number_Qc].
    apply pivot_F_C_F. }
  split; [|split; [|split; [exact P|split]]].
  - intros A num v f t a b Ha Hb Hne Ia Ib.
    unfold convertTemperatureValue. cbv zeta. rewrite Ha, Hb. cbn [of_option].
    unfold CELSIUS_UNITS in Ia, Ib. cbn [In] in Ia, Ib.
    destruct Ia as [<-|[<-|[<-|[<-|[<-|[]]]]]];
      destruct Ib as [<-|[<-|[<-|[<-|[<-|[]]]]]];
      try (exfalso; apply Hne; reflexivity);
      rewrite (findFromConverter_plain cm ok) by reflexivity;
      rewrite (findToConverter_plain cm ok) by reflexivity;
      reflexivity.
  - intros A num v f t a b Ha Hb Hne Ia Ib.
    unfold convertTemperatureValue. cbv zeta. rewrite Ha, Hb. cbn [of_option].
    unfold FAHRENHEIT_UNITS in Ia, Ib. cbn [In] in Ia, Ib.
    destruct Ia as [<-|[<-|[<-|[<-|[<-|[]]]]]];
      destruct Ib as [<-|[<-|[<-|[<-|[<-|[]]]]]];
      try (exfalso; apply Hne; reflexivity);
      rewrite (findFromConverter_plain cm ok) by reflexivity;
      rewrite (findToConverter_plain cm ok) by reflexivity;
      reflexivity.
  - intros A num v. eval_plain cm ok. reflexivity.
  - intros v. eval_plain cm ok. rewrite <- (P v) at 2. reflexivity.
Qed.

Lemma convert_between_aliases_witness :
  CaseMappingOk latin1_case
  /\ convertTemperatureValue (cm := latin1_case) (rational 2)
       (str (u16 "degrees fahrenheit")) (str (u16 "F"))
     = {| value := rational 2; converted := true; unit := Some (u16 "F") |}.
Proof.
  split; [exact latin1_case_ok|].
  exact (proj2 (proj2 (proj2 (proj2 (convert_between_aliases latin1_case latin1_case_ok))))
           (rational 2)).
Defined.

(** C10 as stated fails in the arithmetic the program runs: in binary64
    the detour through Celsius returns 2 degrees Fahrenheit sixteen units
    in the last place below 2. *)
Lemma convert_fahrenheit_alias_binary64_changes_value :
  convertTemperatureValue (cm := latin1_case) 2%float
    (str (u16 "degrees fahrenheit")) (str (u16 "F"))
  = {| value := 0x1.ffffffffffff0p+0%float; converted := true; unit := Some (u16 "F") |}
  /\ value (convertTemperatureValue (cm := latin1_case) 2%float
              (str (u16 "degrees fahrenheit")) (str (u16 "F")))
     <> 2%float.
Proof.
  split; [vm_compute; reflexivity|].
  intros E.
  apply (f_equal (fun x => PrimFloat.eqb x 2%float)) in E.
  vm_compute in E. discriminate E.
Qed.

(* ================================================================== *)
(** * The module's unit tests

    The expectations of the test suite, evaluated with the Latin-1 table
    and binary64 numbers. *)

Section UnitTests.

#[local] Existing Instance latin1_case.

Example test_normalizeTemperatureUnit :
  normalizeTemperatureUnit undefined = None
  /\ normalizeTemperatureUnit null = None
  /\ normalizeTemperatureUnit (str []) = None
  /\ normalizeTemperatureUnit (str (u16 "celsius")) = Some (u16 "C")
  /\ normalizeTemperatureUnit (str (u16 "C")) = Some (u16 "C")
  /\ normalizeTemperatureUnit (str (DEGREE :: u16 "c")) = Some (u16 "C")
  /\ normalizeTemperatureUnit (str (u16 "fahrenheit")) = Some (u16 "F")
  /\ normalizeTemperatureUnit (str (DEGREE :: u16 "F")) = Some (u16 "F")
  /\ normalizeTemperatureUnit (str (u16 "degree fahrenheit")) = Some (u16 "DEGREE_FAHRENHEIT")
  /\ normalizeTemperatureUnit (str (u16 "degree-celsius")) = Some (u16 "DEGREE_CELSIUS")
  /\ normalizeTemperatureUnit (str (u16 "kelvin")) = Some (u16 "KELVIN").
Proof. repeat split; vm_compute; reflexivity. Qed.

(** Spaces become underscores before the trim, so a leading space
    survives as an underscore, while a leading tab is trimmed; a lone
    degree sign normalises to the empty string, not to [undefined]. *)
Example normalize_edge_cases :
  normalizeTemperatureUnit (str (u16 " c")) = Some (u16 "_C")
  /\ normalizeTemperatureUnit (str (0x09 :: u16 "c")) = Some (u16 "C")
  /\ normalizeTemperatureUnit (str [DEGREE]) = Some [].
Proof. repeat split; vm_compute; reflexivity. Qed.

Example test_convert_not_applicable :
  convertTemperatureValue 10%float (str (u16 "C")) undefined
  = {| value := 10%float; converted := false; unit := Some (u16 "C") |}
  /\ convertTemperatureValue 10%float undefined (str (u16 "F"))
     = {| value := 10%float; converted := false; unit := None |}
  /\ convertTemperatureValue 10%float (str (u16 "C")) (str (u16 "C"))
     = {| value := 10%float; converted := false; unit := Some (u16 "C") |}
  /\ convertTemperatureValue 10%float (str (u16 "K")) (str (u16 "F"))
     = {| value := 10%float; converted := false; unit := None |}
  /\ convertTemperatureValue 10%float (str (u16 "C")) (str (u16 "K"))
     = {| value := 10%float; converted := false; unit := Some (u16 "C") |}.
Proof. repeat split; vm_compute; reflexivity. Qed.

Example test_convert_C_F :
  convertTemperatureValue 0%float (str (u16 "C")) (str (u16 "F"))
  = {| value := 32%float; converted := true; unit := Some (u16 "F") |}
  /\ convertTemperatureValue 212%float (str (u16 "F")) (str (u16 "C"))
     = {| value := 100%float; converted := true; unit := Some (u16 "C") |}
  /\ convertTemperatureValue 10%float (str (u16 "degree celsius"))
       (str (u16 "degrees fahrenheit"))
     = {| value := 50%float; converted := true; unit := None |}.
Proof. repeat split; vm_compute; reflexivity. Qed.

Example test_toTemperatureUnitSymbol :
  toTemperatureUnitSymbol (str (u16 "C")) = DEGREE :: u16 "C"
  /\ toTemperatureUnitSymbol (str (u16 "fahrenheit")) = DEGREE :: u16 "F"
  /\ toTemperatureUnitSymbol (str (u16 "K")) = []
  /\ toTemperatureUnitSymbol undefined = [].
Proof. repeat split; vm_compute; reflexivity. Qed.

Example test_isTemperatureAttribute :
  isTemperatureAttribute (u16 "TemperatureMeasurement") (u16 "measuredValue") = true
  /\ isTemperatureAttribute (u16 "temperaturemeasurement") (u16 "measuredValue") = true
  /\ isTemperatureAttribute (u16 "temperatureMeasurement") (u16 "other") = false
  /\ forallb (isTemperatureAttribute (u16 "Thermostat")) THERMOSTAT_ATTRIBUTES = true
  /\ isTemperatureAttribute (u16 "Thermostat") (u16 "systemMode") = false
  /\ isTemperatureAttribute (u16 "OnOff") (u16 "onOff") = false.
Proof. repeat split; vm_compute; reflexivity. Qed.

End UnitTests.

(* ================================================================== *)
(** * What a normalised token looks like *)

Section TokenShape.

Context (cm : CaseMapping) (ok : CaseMappingOk cm).

Lemma table_key_value (p : jsstring) :
  In p [u16 "CELSIUS"; u16 "C"; u16 "FAHRENHEIT"; u16 "F"] ->
  table_or_self p = u16 "C" \/ table_or_self p = u16 "F".
Proof.
  cbn [In]. intros [<-|[<-|[<-|[<-|[]]]]]; vm_compute; auto.
Qed.

(** A token is ['C'], ['F'], or a transformed text that is no key of the
    table. *)
Lemma normalized_token_cases (u : unit_arg) (t : jsstring) :
  normalizeTemperatureUnit u = Some t ->
  (t = u16 "C" \/ t = u16 "F")
  \/ (exists s, u = str s /\ s <> [] /\ t = transformed s /\ table_or_self t = t).
Proof.
  intros Hu. destruct u as [| |s]; try discriminate Hu.
  rewrite normalize_str in Hu. destruct s as [|c s]; [discriminate Hu|].
  injection Hu as Hu.
  destruct (table_or_self_cases (transformed (c :: s))) as [E|K].
  - right. exists (c :: s). rewrite E in Hu. subst t.
    repeat split; [discriminate | exact E].
  - left. apply table_key_value in K. rewrite Hu in K. exact K.
Qed.

(** Upper-casing leaves no Basic Latin lower-case letter. *)
Lemma toUpperCase_no_lowercase (s : jsstring) (x : code_unit) :
  In x (toUpperCase s) -> ~ (0x61 <= x <= 0x7A).
Proof.
  intros Hx Hr. unfold toUpperCase in Hx.
  apply in_flat_map in Hx as (d & Hd & Hx).
  apply in_flat_map in Hd as (c & _ & Hd).
  apply code_units_In in Hx as [[-> _]|[Hx _]];
    [|apply surrogate_range in Hx; lia].
  pose proof (upper_stable c d Hd) as St.
  rewrite upper_ascii in St by lia. unfold ascii_upper in St.
  destruct ((0x61 <=? d) && (d <=? 0x7A)) eqn:E.
  - injection St as St. lia.
  - apply andb_false_iff in E as [E|E]; apply N.leb_gt in E; lia.
Qed.

Lemma token_units (u : unit_arg) (t : jsstring) (x : code_unit) :
  normalizeTemperatureUnit u = Some t -> In x t ->
  x <> DEGREE /\ x <> HYPHEN /\ x <> SPACE /\ ~ (0x61 <= x <= 0x7A).
Proof.
  intros Hu Hx.
  destruct (normalized_token_cases u t Hu) as [[E|E]|(s & _ & _ & E & _)]; subst t.
  - destruct Hx as [<-|[]]. unfold DEGREE, HYPHEN, SPACE. cbv. repeat split; try discriminate.
    intros [H _]. apply H. reflexivity.
  - destruct Hx as [<-|[]]. unfold DEGREE, HYPHEN, SPACE. cbv. repeat split; try discriminate.
    intros [H _]. apply H. reflexivity.
  - pose proof (transformed_clean cm s x Hx) as (Hd & Hh & Hs).
    repeat split; try assumption.
    apply transformed_In in Hx as [->|Hx]; [unfold UNDERSCORE; lia|].
    exact (toUpperCase_no_lowercase s x Hx).
Qed.

Lemma token_trimmed (u : unit_arg) (t : jsstring) :
  normalizeTemperatureUnit u = Some t -> trim t = t.
Proof.
  intros Hu.
  destruct (normalized_token_cases u t Hu) as [[E|E]|(s & _ & _ & E & _)]; subst t;
    [reflexivity | reflexivity | apply transformed_trimmed].
Qed.

End TokenShape.

(** X1. Whatever the argument, a token returned by
    [normalizeTemperatureUnit] contains no degree sign, hyphen, space or
    Basic Latin lower-case letter and has no white space at either end;
    in particular it is never one of the two aliases with a degree sign
    that both converter tables list. *)
Theorem normalized_token_invariants (cm : CaseMapping) (ok : CaseMappingOk cm)
  (u : unit_arg) (t : jsstring) :
  normalizeTemperatureUnit u = Some t ->
  (forall x, In x t ->
     x <> DEGREE /\ x <> HYPHEN /\ x <> SPACE /\ ~ (0x61 <= x <= 0x7A))
  /\ trim t = t
  /\ t <> DEGREE :: u16 "C"
  /\ t <> DEGREE :: u16 "F".
Proof.
  intros Hu.
  assert (U : forall x, In x t ->
            x <> DEGREE /\ x <> HYPHEN /\ x <> SPACE /\ ~ (0x61 <= x <= 0x7A))
    by (intros x Hx; exact (token_units cm ok u t x Hu Hx)).
  split; [exact U|]. split; [exact (token_trimmed cm u t Hu)|].
  split; intros E; subst t;
    destruct (U DEGREE (or_introl eq_refl)) as [Hd _]; apply Hd; reflexivity.
Qed.

Lemma normalized_token_invariants_witness :
  CaseMappingOk latin1_case
  /\ normalizeTemperatureUnit (cm := latin1_case)
       (str (DEGREE :: u16 " degree-Fahrenheit ")) = Some (u16 "_DEGREE_FAHRENHEIT_")
  /\ trim (u16 "_DEGREE_FAHRENHEIT_") = u16 "_DEGREE_FAHRENHEIT_".
Proof.
  split; [exact latin1_case_ok|].
  assert (E : normalizeTemperatureUnit (cm := latin1_case)
                (str (DEGREE :: u16 " degree-Fahrenheit ")) = Some (u16 "_DEGREE_FAHRENHEIT_"))
    by (vm_compute; reflexivity).
  split; [exact E|].
  exact (proj1 (proj2 (normalized_token_invariants latin1_case latin1_case_ok _ _ E))).
Defined.

(* ================================================================== *)
(** * Normalising twice *)

Section Twice.

Context (cm : CaseMapping) (ok : CaseMappingOk cm).

(** A token that the tables list is its own normalisation. *)
Lemma known_token_renormalize (u : unit_arg) (t : jsstring) :
  normalizeTemperatureUnit u = Some t -> known_token t = true ->
  normalizeTemperatureUnit (str t) = Some t.
Proof.
  intros Hu K.
  destruct (normalized_token_cases cm u t Hu) as [[E|E]|(s & _ & _ & Et & Es)].
  - subst t. eval_plain cm ok. reflexivity.
  - subst t. eval_plain cm ok. reflexivity.
  - assert (Hin : In t TABLE_TEXTS).
    { apply known_token_texts; [rewrite Es; exact K|].
      intros Hd. rewrite Et in Hd. apply transformed_clean in Hd. tauto. }
    clear Et Hu. unfold TABLE_TEXTS in Hin. cbn [map In] in Hin.
    repeat (destruct Hin as [Hin|Hin];
            [subst t;
             first [ eval_plain cm ok; reflexivity
                   | exfalso; vm_compute in Es; discriminate Es ]|]).
    contradiction.
Qed.

Lemma ascii_upper_idem (c : code_unit) : ascii_upper (ascii_upper c) = ascii_upper c.
Proof.
  unfold ascii_upper.
  destruct ((0x61 <=? c) && (c <=? 0x7A)) eqn:E; [|rewrite E; reflexivity].
  destruct ((0x61 <=? c - 0x20) && (c - 0x20 <=? 0x7A)) eqn:E'; [|reflexivity].
  bool_facts. lia.
Qed.

(** On Basic Latin labels the transformation is idempotent. *)
Lemma transformed_plain_idem (s : jsstring) :
  forallb is_plain s = true -> transformed (transformed s) = transformed s.
Proof.
  intros Hs. apply transformed_fixed.
  - rewrite (toUpperCase_plain cm ok) by (apply (transformed_plain_closed cm ok), Hs).
    rewrite <- (map_id (transformed s)) at 2. apply map_ext_in.
    intros x Hx. apply transformed_In in Hx as [->|Hx]; [reflexivity|].
    rewrite (toUpperCase_plain cm ok s Hs) in Hx.
    apply in_map_iff in Hx as (c & <- & _). apply ascii_upper_idem.
  - intros x Hx. apply transformed_clean in Hx. tauto.
  - apply transformed_trimmed.
Qed.

Lemma plain_renormalize (u : unit_arg) (t : jsstring) :
  plain_arg u = true -> normalizeTemperatureUnit u = Some t -> t <> [] ->
  normalizeTemperatureUnit (str t) = Some t.
Proof.
  intros Hp Hu Hne.
  destruct (normalized_token_cases cm u t Hu) as [[E|E]|(s & Eu & _ & Et & Es)].
  - subst t. eval_plain cm ok. reflexivity.
  - subst t. eval_plain cm ok. reflexivity.
  - subst u. simpl in Hp. rewrite normalize_str.
    destruct t as [|c t']; [contradiction|].
    rewrite Et at 1. rewrite (transformed_plain_idem s Hp), <- Et, Es. reflexivity.
Qed.

(** The lookup helpers see the same token, whether they are given the
    unit or its normalisation. *)
Lemma renormalize_lookup {A} {num : Number A} (u : unit_arg) (t : jsstring) :
  normalizeTemperatureUnit u = Some t ->
  findFromConverter (A := A) (str t)
  = find (fun converter => includes (units converter) t) temperatureFromUnits
  /\ findToConverter (A := A) (str t)
     = find (fun converter => includes (out_units converter) t) temperatureToUnits.
Proof.
  intros Hu. destruct (known_token t) eqn:K.
  - pose proof (known_token_renormalize u t Hu K) as E.
    assert (Hne : truthy (Some t) = true)
      by (destruct t; [vm_compute in K; discriminate K | reflexivity]).
    unfold findFromConverter, findToConverter. cbv zeta. rewrite E, Hne. split; reflexivity.
  - rewrite (findFromConverter_unknown cm ok u t Hu K).
    rewrite (findToConverter_unknown cm ok u t Hu K).
    split; symmetry; [apply find_from_known | apply find_to_known]; exact K.
Qed.

End Twice.

(** X2. Normalising an already normalised token gives the token again
    when the label is made of Basic Latin characters and degree signs, or
    when the token is one that the converter tables list. *)
Theorem normalize_idempotent (cm : CaseMapping) (ok : CaseMappingOk cm)
  (u : unit_arg) (t : jsstring) :
  normalizeTemperatureUnit u = Some t -> t <> [] ->
  plain_arg u = true \/ known_token t = true ->
  normalizeTemperatureUnit (str t) = Some t.
Proof.
  intros Hu Hne [Hp|K].
  - exact (plain_renormalize cm ok u t Hp Hu Hne).
  - exact (known_token_renormalize cm ok u t Hu K).
Qed.

Lemma normalize_idempotent_witness :
  CaseMappingOk latin1_case
  /\ normalizeTemperatureUnit (cm := latin1_case) (str (u16 "DEGREE_KELVIN"))
     = Some (u16 "DEGREE_KELVIN").
Proof.
  split; [exact latin1_case_ok|].
  apply (normalize_idempotent latin1_case latin1_case_ok (str (u16 "degree kelvin"))).
  - vm_compute. reflexivity.
  - discriminate.
  - left. reflexivity.
Defined.

(** X3. [findFromConverter] and [findToConverter] give the same
    converter for a unit and for its normalisation, so the second
    normalisation that [convertTemperatureValue] causes by passing them
    normalised tokens changes nothing. *)
Theorem lookup_after_normalization (cm : CaseMapping) (ok : CaseMappingOk cm)
  (A : Type) (num : Number A) (u : unit_arg) :
  findFromConverter (A := A) (of_option (normalizeTemperatureUnit u))
  = findFromConverter u
  /\ findToConverter (A := A) (of_option (normalizeTemperatureUnit u))
     = findToConverter u.
Proof.
  destruct (normalizeTemperatureUnit u) as [t|] eqn:Hu.
  - destruct (renormalize_lookup cm ok (A := A) u t Hu) as [E1 E2].
    cbn [of_option]. rewrite E1, E2.
    unfold findFromConverter, findToConverter. cbv zeta. rewrite Hu.
    destruct t as [|c t'] eqn:Et; [|split; reflexivity].
    split; reflexivity.
  - unfold findFromConverter, findToConverter. cbv zeta. cbn [of_option].
    rewrite Hu. split; reflexivity.
Qed.

Lemma lookup_after_normalization_witness :
  CaseMappingOk latin1_case
  /\ findFromConverter (cm := latin1_case) (A := Qc) (str (u16 "DEGREES_FAHRENHEIT"))
     = findFromConverter (cm := latin1_case) (str (u16 "degrees-fahrenheit")).
Proof.
  split; [exact latin1_case_ok|].
  exact (proj1 (lookup_after_normalization latin1_case latin1_case_ok Qc Number_Qc
                  (str (u16 "degrees-fahrenheit")))).
Defined.

(* ================================================================== *)
(** * The converter, token by token *)

Section ByTokens.

Context (cm : CaseMapping) (ok : CaseMappingOk cm).
Context {A : Type} {num : Number A}.

(** With both units normalised, the converter searches the tables with
    the tokens themselves. *)
Lemma convert_by_tokens (v : A) (f t : unit_arg) (a b : jsstring) :
  normalizeTemperatureUnit f = Some a ->
  normalizeTemperatureUnit t = Some b ->
  convertTemperatureValue v f t
  = if negb (truthy (Some b)) || negb (truthy (Some a)) || str_eqb a b
    then {| value := v; converted := false; unit := C_or_F (Some a) |}
    else match find (fun converter => includes (units converter) a) temperatureFromUnits,
               find (fun converter => includes (out_units converter) b) temperatureToUnits
         with
         | Some fromConverter, Some toConverter =>
             {| value := fromCelsius toConverter (toCelsius fromConverter v);
                converted := true;
                unit := C_or_F (Some b) |}
         | _, _ => {| value := v; converted := false; unit := C_or_F (Some a) |}
         end.
Proof.
  intros Ha Hb. unfold convertTemperatureValue. cbv zeta. rewrite Ha, Hb.
  cbn [of_option opt_eqb].
  rewrite (proj1 (renormalize_lookup cm ok f a Ha)).
  rewrite (proj2 (renormalize_lookup cm ok t b Hb)). reflexivity.
Qed.

Lemma known_token_nonempty (a : jsstring) : known_token a = true -> truthy (Some a) = true.
Proof. destruct a; [intros K; vm_compute in K; discriminate K | reflexivity]. Qed.

Lemma celsius_not_fahrenheit (b : jsstring) :
  In b FAHRENHEIT_UNITS -> includes CELSIUS_UNITS b = false.
Proof.
  intros Hb.
  assert (T : forallb (fun e => negb (includes CELSIUS_UNITS e)) FAHRENHEIT_UNITS = true)
    by (vm_compute; reflexivity).
  rewrite forallb_forall in T. apply negb_true_iff. exact (T b Hb).
Qed.

Lemma find_from_celsius (a : jsstring) :
  In a CELSIUS_UNITS ->
  find (fun converter => includes (units converter) a) (temperatureFromUnits (A := A))
  = Some {| units := CELSIUS_UNITS; toCelsius := fun value => value |}.
Proof.
  intros Ha. unfold temperatureFromUnits. cbn [find units].
  rewrite (proj2 (includes_In CELSIUS_UNITS a) Ha). reflexivity.
Qed.

Lemma find_from_fahrenheit (a : jsstring) :
  In a FAHRENHEIT_UNITS ->
  find (fun converter => includes (units converter) a) (temperatureFromUnits (A := A))
  = Some {| units := FAHRENHEIT_UNITS;
            toCelsius := fun value => ndiv (nmul (nsub value (nlit 32)) (nlit 5)) (nlit 9) |}.
Proof.
  intros Ha. unfold temperatureFromUnits. cbn [find units].
  rewrite (celsius_not_fahrenheit a Ha), (proj2 (includes_In FAHRENHEIT_UNITS a) Ha).
  reflexivity.
Qed.

Lemma find_to_celsius (b : jsstring) :
  In b CELSIUS_UNITS ->
  find (fun converter => includes (out_units converter) b) (temperatureToUnits (A := A))
  = Some {| out_units := CELSIUS_UNITS; fromCelsius := fun value => value |}.
Proof.
  intros Hb. unfold temperatureToUnits. cbn [find out_units].
  rewrite (proj2 (includes_In CELSIUS_UNITS b) Hb). reflexivity.
Qed.

Lemma find_to_fahrenheit (b : jsstring) :
  In b FAHRENHEIT_UNITS ->
  find (fun converter => includes (out_units converter) b) (temperatureToUnits (A := A))
  = Some {| out_units := FAHRENHEIT_UNITS;
            fromCelsius := fun value => nadd (nmul value (ndiv (nlit 9) (nlit 5))) (nlit 32) |}.
Proof.
  intros Hb. unfold temperatureToUnits. cbn [find out_units].
  rewrite (celsius_not_fahrenheit b Hb), (proj2 (includes_In FAHRENHEIT_UNITS b) Hb).
  reflexivity.
Qed.

Lemma alias_known (a : jsstring) :
  In a CELSIUS_UNITS \/ In a FAHRENHEIT_UNITS -> known_token a = true.
Proof.
  unfold known_token. rewrite orb_true_iff, !includes_In. tauto.
Qed.

(** From a Celsius alias to a Fahrenheit alias. *)
Lemma convert_celsius_to_fahrenheit (v : A) (f t : unit_arg) (a b : jsstring) :
  normalizeTemperatureUnit f = Some a -> normalizeTemperatureUnit t = Some b ->
  In a CELSIUS_UNITS -> In b FAHRENHEIT_UNITS ->
  convertTemperatureValue v f t
  = {| value := nadd (nmul v (ndiv (nlit 9) (nlit 5))) (nlit 32);
       converted := true;
       unit := C_or_F (Some b) |}.
Proof.
  intros Ha Hb Ia Ib. rewrite (convert_by_tokens v f t a b Ha Hb).
  rewrite (known_token_nonempty a) by (apply alias_known; tauto).
  rewrite (known_token_nonempty b) by (apply alias_known; tauto).
  assert (Hne : str_eqb a b = false).
  { apply str_eqb_neq. intros ->. apply celsius_not_fahrenheit in Ib.
    rewrite (proj2 (includes_In _ _) Ia) in Ib. discriminate Ib. }
  rewrite Hne. cbn [negb orb].
  rewrite (find_from_celsius a Ia), (find_to_fahrenheit b Ib). reflexivity.
Qed.

(** From a Fahrenheit alias to a Celsius alias. *)
Lemma convert_fahrenheit_to_celsius (v : A) (f t : unit_arg) (a b : jsstring) :
  normalizeTemperatureUnit f = Some a -> normalizeTemperatureUnit t = Some b ->
  In a FAHRENHEIT_UNITS -> In b CELSIUS_UNITS ->
  convertTemperatureValue v f t
  = {| value := ndiv (nmul (nsub v (nlit 32)) (nlit 5)) (nlit 9);
       converted := true;
       unit := C_or_F (Some b) |}.
Proof.
  intros Ha Hb Ia Ib. rewrite (convert_by_tokens v f t a b Ha Hb).
  rewrite (known_token_nonempty a) by (apply alias_known; tauto).
  rewrite (known_token_nonempty b) by (apply alias_known; tauto).
  assert (Hne : str_eqb a b = false).
  { apply str_eqb_neq. intros ->. apply celsius_not_fahrenheit in Ia.
    rewrite (proj2 (includes_In _ _) Ib) in Ia. discriminate Ia. }
  rewrite Hne. cbn [negb orb].
  rewrite (find_from_fahrenheit a Ia), (find_to_celsius b Ib). reflexivity.
Qed.

End ByTokens.

(** X4. A conversion takes place exactly when both units normalise to
    tokens that the tables list and the two tokens differ; in every other
    case the result carries the input value, [converted] false and the
    source unit when that is ['C'] or ['F']. *)
Theorem converted_exactly_when (cm : CaseMapping) (ok : CaseMappingOk cm)
  (A : Type) (num : Number A) (v : A) (fromUnit toUnit : unit_arg) :
  (converted (convertTemperatureValue v fromUnit toUnit) = true <->
   exists a b,
     normalizeTemperatureUnit fromUnit = Some a
     /\ normalizeTemperatureUnit toUnit = Some b
     /\ a <> b /\ known_token a = true /\ known_token b = true)
  /\ (converted (convertTemperatureValue v fromUnit toUnit) = false ->
      convertTemperatureValue v fromUnit toUnit
      = {| value := v; converted := false;
           unit := C_or_F (normalizeTemperatureUnit fromUnit) |}).
Proof.
  split.
  - destruct (normalizeTemperatureUnit fromUnit) as [a|] eqn:Ha;
      [destruct (normalizeTemperatureUnit toUnit) as [b|] eqn:Hb|].
    + rewrite (convert_by_tokens cm ok v fromUnit toUnit a b Ha Hb).
      destruct (known_token a) eqn:Ka.
      * destruct (known_token b) eqn:Kb.
        -- rewrite (known_token_nonempty a Ka), (known_token_nonempty b Kb). cbn [negb orb].
           destruct (str_eqb a b) eqn:E.
           ++ apply str_eqb_eq in E. split; [discriminate|].
              intros (a' & b' & Ea & Eb & Hne & _). congruence.
           ++ apply str_eqb_neq in E.
              destruct (find _ temperatureFromUnits) eqn:Ff;
                [|apply find_from_known in Ff; congruence].
              destruct (find _ temperatureToUnits) eqn:Ft;
                [|apply find_to_known in Ft; congruence].
              split; [|reflexivity]. intros _. exists a, b. auto.
        -- apply (find_to_known (A := A)) in Kb. rewrite Kb.
           split; [destruct (_ || _); [cbn [converted]; discriminate|];
                   destruct (find _ temperatureFromUnits); cbn [converted]; discriminate|].
           intros (a' & b' & Ea & Eb & _ & _ & Kb').
           injection Eb as <-. apply find_to_known in Kb. congruence.
      * apply (find_from_known (A := A)) in Ka. rewrite Ka.
        split; [destruct (_ || _); cbn [converted]; discriminate|].
        intros (a' & b' & Ea & Eb & _ & Ka' & _).
        injection Ea as <-. apply find_from_known in Ka. congruence.
    + unfold convertTemperatureValue. cbv zeta. rewrite Ha, Hb. cbn.
      split; [discriminate|]. intros (a' & b' & _ & Eb & _). discriminate Eb.
    + unfold convertTemperatureValue. cbv zeta. rewrite Ha. cbn [truthy negb].
      rewrite orb_true_r. cbn.
      split; [discriminate|]. intros (a' & b' & Ea & _). discriminate Ea.
  - unfold convertTemperatureValue. cbv zeta.
    destruct (_ || _); [reflexivity|].
    destruct (findFromConverter _); [|reflexivity].
    destruct (findToConverter _); [|reflexivity].
    cbn [converted]. discriminate.
Qed.

Lemma converted_exactly_when_witness :
  CaseMappingOk latin1_case
  /\ converted (convertTemperatureValue (cm := latin1_case) (rational 10)
                  (str (u16 "degree celsius")) (str (u16 "degrees fahrenheit"))) = true.
Proof.
  split; [exact latin1_case_ok|].
  apply (proj1 (converted_exactly_when latin1_case latin1_case_ok Qc Number_Qc
                  (rational 10) (str (u16 "degree celsius"))
                  (str (u16 "degrees fahrenheit")))).
  exists (u16 "DEGREE_CELSIUS"), (u16 "DEGREES_FAHRENHEIT").
  repeat split; try reflexivity. discriminate.
Defined.

(** X5. Between the two families every pair of aliases converts: from
    any Celsius alias to any Fahrenheit alias the value becomes
    v * (9 / 5) + 32, and from any Fahrenheit alias to any Celsius alias
    ((v - 32) * 5) / 9.  The result is labelled with the target token
    only when that token is ['C'] or ['F']; a target such as
    ['DEGREES_FAHRENHEIT'] gives a converted value without unit. *)
Theorem convert_across_families (cm : CaseMapping) (ok : CaseMappingOk cm)
  (A : Type) (num : Number A) (v : A) (fromUnit toUnit : unit_arg) (a b : jsstring) :
  normalizeTemperatureUnit fromUnit = Some a ->
  normalizeTemperatureUnit toUnit = Some b ->
  (In a CELSIUS_UNITS -> In b FAHRENHEIT_UNITS ->
   convertTemperatureValue v fromUnit toUnit
   = {| value := nadd (nmul v (ndiv (nlit 9) (nlit 5))) (nlit 32);
        converted := true;
        unit := if str_eqb b (u16 "F") then Some (u16 "F") else None |})
  /\ (In a FAHRENHEIT_UNITS -> In b CELSIUS_UNITS ->
      convertTemperatureValue v fromUnit toUnit
      = {| value := ndiv (nmul (nsub v (nlit 32)) (nlit 5)) (nlit 9);
           converted := true;
           unit := if str_eqb b (u16 "C") then Some (u16 "C") else None |}).
Proof.
  intros Ha Hb. split; intros Ia Ib.
  - rewrite (convert_celsius_to_fahrenheit cm ok v fromUnit toUnit a b Ha Hb Ia Ib).
    f_equal. unfold FAHRENHEIT_UNITS in Ib. cbn [In] in Ib.
    destruct Ib as [<-|[<-|[<-|[<-|[<-|[]]]]]]; reflexivity.
  - rewrite (convert_fahrenheit_to_celsius cm ok v fromUnit toUnit a b Ha Hb Ia Ib).
    f_equal. unfold CELSIUS_UNITS in Ib. cbn [In] in Ib.
    destruct Ib as [<-|[<-|[<-|[<-|[<-|[]]]]]]; reflexivity.
Qed.

Lemma convert_across_families_witness :
  CaseMappingOk latin1_case
  /\ convertTemperatureValue (cm := latin1_case) 10%float
       (str (u16 "degree celsius")) (str (u16 "degrees fahrenheit"))
     = {| value := 50%float; converted := true; unit := None |}.
Proof.
  split; [exact latin1_case_ok|].
  refine (proj1 (convert_across_families latin1_case latin1_case_ok float Number_float
                   10%float (str (u16 "degree celsius")) (str (u16 "degrees fahrenheit"))
                   (u16 "DEGREE_CELSIUS") (u16 "DEGREES_FAHRENHEIT") eq_refl eq_refl) _ _).
  - right. right. left. reflexivity.
  - right. right. right. left. reflexivity.
Defined.

Lemma C_or_F_cases (n : option jsstring) :
  (C_or_F n = None /\ n <> Some (u16 "C") /\ n <> Some (u16 "F"))
  \/ (C_or_F n = n /\ (n = Some (u16 "C") \/ n = Some (u16 "F"))).
Proof.
  unfold C_or_F.
  destruct (opt_eqb n (Some (u16 "C"))) eqn:EC.
  - apply opt_eqb_eq in EC. right. split; [reflexivity | left; exact EC].
  - destruct (opt_eqb n (Some (u16 "F"))) eqn:EF.
    + apply opt_eqb_eq in EF. right. split; [reflexivity | right; exact EF].
    + left. cbn [orb]. repeat split.
      * intros E. apply opt_eqb_eq in E. congruence.
      * intros E. apply opt_eqb_eq in E. congruence.
Qed.

(** X6. The [unit] of a result is [undefined], ['C'] or ['F'] and
    nothing else; when it is present it is the normalised target unit of
    a converted result and the normalised source unit of an unconverted
    one. *)
Theorem result_unit_is_C_or_F (cm : CaseMapping) (A : Type) (num : Number A)
  (v : A) (fromUnit toUnit : unit_arg) :
  (unit (convertTemperatureValue v fromUnit toUnit) = None
   \/ unit (convertTemperatureValue v fromUnit toUnit) = Some (u16 "C")
   \/ unit (convertTemperatureValue v fromUnit toUnit) = Some (u16 "F"))
  /\ (forall x, unit (convertTemperatureValue v fromUnit toUnit) = Some x ->
        if converted (convertTemperatureValue v fromUnit toUnit)
        then normalizeTemperatureUnit toUnit = Some x
        else normalizeTemperatureUnit fromUnit = Some x).
Proof.
  assert (S : forall n, C_or_F n = None \/ C_or_F n = Some (u16 "C")
                        \/ C_or_F n = Some (u16 "F")).
  { intros n. destruct (C_or_F_cases n) as [[E _]|[E [K|K]]]; rewrite E; auto. }
  assert (T : forall n x, C_or_F n = Some x -> n = Some x).
  { intros n x. destruct (C_or_F_cases n) as [[E _]|[E _]]; rewrite E; congruence. }
  unfold convertTemperatureValue. cbv zeta.
  destruct (_ || _); [split; [apply S | apply T]|].
  destruct (findFromConverter _); [|split; [apply S | apply T]].
  destruct (findToConverter _); split; cbn [unit converted]; apply S || apply T.
Qed.

(* ================================================================== *)
(** * The arithmetic of a conversion *)

Lemma to_fahrenheit_Q (v : Qc) :
  (this (v * (rational 9 / rational 5) + rational 32)%Qc == this v * (9 # 5) + 32)%Q.
Proof.
  unfold rational. unfold Qcdiv, Qcminus, Qcinv, Qcopp, Qcplus, Qcmult. cbn [this Q2Qc].
  rewrite !Qred_correct. reflexivity.
Qed.

Lemma to_celsius_Q (v : Qc) :
  (this ((v - rational 32) * rational 5 / rational 9)%Qc == (this v - 32) * (5 # 9))%Q.
Proof.
  unfold rational. unfold Qcdiv, Qcminus, Qcinv, Qcopp, Qcplus, Qcmult. cbn [this Q2Qc].
  rewrite !Qred_correct. field.
Qed.

Lemma minus_forty_Q : (this (rational (-40)) == -40 # 1)%Q.
Proof. unfold rational. cbn [this Q2Qc]. rewrite Qred_correct. reflexivity. Qed.

(** X7. In exact arithmetic a conversion between the two families keeps
    the order of temperatures, strictly, and -40 is the only value it
    leaves unchanged. *)
Theorem conversion_monotone_fixed_point (cm : CaseMapping) (ok : CaseMappingOk cm)
  (fromUnit toUnit : unit_arg) (a b : jsstring) :
  normalizeTemperatureUnit fromUnit = Some a ->
  normalizeTemperatureUnit toUnit = Some b ->
  (In a CELSIUS_UNITS /\ In b FAHRENHEIT_UNITS)
  \/ (In a FAHRENHEIT_UNITS /\ In b CELSIUS_UNITS) ->
  (forall v w : Qc,
      (v < w)%Qc <->
      (value (convertTemperatureValue v fromUnit toUnit)
       < value (convertTemperatureValue w fromUnit toUnit))%Qc)
  /\ (forall v : Qc,
        value (convertTemperatureValue v fromUnit toUnit) = v <-> v = rational (-40)).
Proof.
  intros Ha Hb [[Ia Ib]|[Ia Ib]].
  - split.
    + intros v w.
      rewrite !(convert_celsius_to_fahrenheit cm ok _ fromUnit toUnit a b Ha Hb Ia Ib).
      cbn [value nadd nmul ndiv nlit Number_Qc]. unfold Qclt.
      rewrite !to_fahrenheit_Q. split; intros; lra.
    + intros v.
      rewrite (convert_celsius_to_fahrenheit cm ok _ fromUnit toUnit a b Ha Hb Ia Ib).
      cbn [value nadd nmul ndiv nlit Number_Qc]. split; intros H.
      * apply Qc_is_canon. rewrite minus_forty_Q.
        assert (H' : (this (v * (rational 9 / rational 5) + rational 32)%Qc == this v)%Q)
          by (rewrite H; reflexivity).
        rewrite to_fahrenheit_Q in H'. lra.
      * subst v. apply Qc_is_canon. rewrite to_fahrenheit_Q, minus_forty_Q. lra.
  - split.
    + intros v w.
      rewrite !(convert_fahrenheit_to_celsius cm ok _ fromUnit toUnit a b Ha Hb Ia Ib).
      cbn [value nsub nmul ndiv nlit Number_Qc]. unfold Qclt.
      rewrite !to_celsius_Q. split; intros; lra.
    + intros v.
      rewrite (convert_fahrenheit_to_celsius cm ok _ fromUnit toUnit a b Ha Hb Ia Ib).
      cbn [value nsub nmul ndiv nlit Number_Qc]. split; intros H.
      * apply Qc_is_canon. rewrite minus_forty_Q.
        assert (H' : (this ((v - rational 32) * rational 5 / rational 9)%Qc == this v)%Q)
          by (rewrite H; reflexivity).
        rewrite to_celsius_Q in H'. lra.
      * subst v. apply Qc_is_canon. rewrite to_celsius_Q, minus_forty_Q. lra.
Qed.

Lemma conversion_monotone_fixed_point_witness :
  CaseMappingOk latin1_case
  /\ (rational 20 < rational 21)%Qc
  /\ (value (convertTemperatureValue (cm := latin1_case) (rational 20)
              (str (u16 "celsius")) (str (u16 "degree fahrenheit")))
      < value (convertTemperatureValue (cm := latin1_case) (rational 21)
                 (str (u16 "celsius")) (str (u16 "degree fahrenheit"))))%Qc.
Proof.
  split; [exact latin1_case_ok|].
  assert (L : (rational 20 < rational 21)%Qc) by reflexivity.
  split; [exact L|].
  refine (proj1 (proj1 (conversion_monotone_fixed_point latin1_case latin1_case_ok
                          (str (u16 "celsius")) (str (u16 "degree fahrenheit"))
                          (u16 "C") (u16 "DEGREE_FAHRENHEIT") eq_refl eq_refl _)
                   (rational 20) (rational 21)) L).
  left. split; [left; reflexivity | right; right; left; reflexivity].
Defined.

(* ================================================================== *)
(** * Labels that are written differently *)

Section Spelling.

Context (cm : CaseMapping) (ok : CaseMappingOk cm).


Lemma separator_cases (x : code_unit) :
  is_separator x = true -> x = HYPHEN \/ x = SPACE \/ x = UNDERSCORE.
Proof.
  unfold is_separator. rewrite !orb_true_iff, !N.eqb_eq. tauto.
Qed.




End Spelling.





(* ================================================================== *)
(** * The two converter tables side by side *)

(** X9. The two tables know the same units: a unit has a converter into
    Celsius exactly when it has one out of Celsius, and the two carry
    the same alias list.  No token is listed by two entries of a table,
    so the order of the entries does not matter. *)
Theorem tables_agree (cm : CaseMapping) (A : Type) (num : Number A) :
  (forall u : unit_arg,
      (findFromConverter (A := A) u = None <-> findToConverter (A := A) u = None)
      /\ (forall c c', findFromConverter (A := A) u = Some c ->
                       findToConverter (A := A) u = Some c' ->
                       units c = out_units c'))
  /\ (forall t : jsstring,
        (List.length (filter (fun converter => includes (units converter) t)
                        (temperatureFromUnits (A := A))) <= 1)%nat
        /\ (List.length (filter (fun converter => includes (out_units converter) t)
                           (temperatureToUnits (A := A))) <= 1)%nat).
Proof.
  split.
  - intros u. unfold findFromConverter, findToConverter. cbv zeta.
    destruct (normalizeTemperatureUnit u) as [n|];
      [|cbn [truthy negb]; split; [split; intros _; reflexivity | discriminate]].
    destruct (negb (truthy (Some n))); [split; [split; intros _; reflexivity | discriminate]|].
    unfold temperatureFromUnits, temperatureToUnits. cbn [find units out_units].
    destruct (includes CELSIUS_UNITS n).
    + split; [split; discriminate|]. intros c c' E E'.
      injection E as <-. injection E' as <-. reflexivity.
    + destruct (includes FAHRENHEIT_UNITS n).
      * split; [split; discriminate|]. intros c c' E E'.
        injection E as <-. injection E' as <-. reflexivity.
      * split; [split; intros _; reflexivity | discriminate].
  - intros t. unfold temperatureFromUnits, temperatureToUnits.
    cbn [filter units out_units].
    destruct (includes CELSIUS_UNITS t) eqn:EC.
    + apply includes_In in EC.
      destruct (includes FAHRENHEIT_UNITS t) eqn:EF.
      * apply includes_In in EF. apply celsius_not_fahrenheit in EF.
        apply (proj2 (includes_In _ _)) in EC. congruence.
      * split; apply Nat.le_refl.
    + destruct (includes FAHRENHEIT_UNITS t); cbn [List.length]; split; auto.
Qed.

(* ================================================================== *)
(** * Symbols, resolved targets and option lists *)

(** X10. The display symbol of a unit is the display symbol of its
    normalisation: normalising a label before asking for its symbol
    changes nothing. *)
Theorem symbol_after_normalization (cm : CaseMapping) (ok : CaseMappingOk cm)
  (u : unit_arg) :
  toTemperatureUnitSymbol (of_option (normalizeTemperatureUnit u))
  = toTemperatureUnitSymbol u.
Proof.
  destruct (normalizeTemperatureUnit u) as [t|] eqn:Hu.
  - cbn [of_option]. destruct (known_token t) eqn:K.
    + unfold toTemperatureUnitSymbol. cbv zeta.
      rewrite (known_token_renormalize cm ok u t Hu K), Hu. reflexivity.
    + assert (N1 : forall o k, known_token k = true ->
                     (forall t', o = Some t' -> known_token t' = false) ->
                     opt_eqb o (Some k) = false).
      { intros o k Kk Ho. destruct (opt_eqb o (Some k)) eqn:E; [|reflexivity].
        apply opt_eqb_eq in E. specialize (Ho k E). congruence. }
      unfold toTemperatureUnitSymbol. cbv zeta. rewrite Hu.
      rewrite !(N1 (Some t)); try reflexivity;
        try (intros t' E; injection E as <-; exact K).
      rewrite !(N1 (normalizeTemperatureUnit (str t))); try reflexivity;
        intros t' E; exact (unknown_token_stays_unknown cm ok u t t' Hu K E).
  - cbn [of_option]. unfold toTemperatureUnitSymbol. cbv zeta. rewrite Hu. reflexivity.
Qed.

Lemma symbol_after_normalization_witness :
  CaseMappingOk latin1_case
  /\ toTemperatureUnitSymbol (cm := latin1_case) (str (u16 "F"))
     = toTemperatureUnitSymbol (cm := latin1_case) (str (u16 "fahrenheit")).
Proof.
  split; [exact latin1_case_ok|].
  exact (symbol_after_normalization latin1_case latin1_case_ok (str (u16 "fahrenheit"))).
Defined.

Lemma resolve_values (s : TemperatureConversionTarget) (d : TemperatureDeviceConversionMode) :
  resolveTemperatureTargetUnit s d = None
  \/ resolveTemperatureTargetUnit s d = Some (u16 "C")
  \/ resolveTemperatureTargetUnit s d = Some (u16 "F").
Proof. destruct s, d; cbv; auto. Qed.

(** A resolved target is already a normalised token. *)
Lemma resolve_normalized (cm : CaseMapping) (ok : CaseMappingOk cm)
  (s : TemperatureConversionTarget) (d : TemperatureDeviceConversionMode) :
  normalizeTemperatureUnit (of_option (resolveTemperatureTargetUnit s d))
  = resolveTemperatureTargetUnit s d.
Proof.
  destruct (resolve_values s d) as [E|[E|E]]; rewrite E; cbn [of_option];
    [reflexivity | |]; eval_plain cm ok; reflexivity.
Qed.

Lemma converted_unit (cm : CaseMapping) (A : Type) (num : Number A)
  (v : A) (f t : unit_arg) :
  converted (convertTemperatureValue v f t) = true ->
  unit (convertTemperatureValue v f t) = C_or_F (normalizeTemperatureUnit t).
Proof.
  unfold convertTemperatureValue. cbv zeta.
  destruct (_ || _); [discriminate|].
  destruct (findFromConverter _); [|discriminate].
  destruct (findToConverter _); [reflexivity | discriminate].
Qed.

Lemma converted_when_known (cm : CaseMapping) (ok : CaseMappingOk cm)
  (A : Type) (num : Number A) (v : A) (f t : unit_arg) (a b : jsstring) :
  normalizeTemperatureUnit f = Some a -> normalizeTemperatureUnit t = Some b ->
  a <> b -> known_token a = true -> known_token b = true ->
  converted (convertTemperatureValue v f t) = true.
Proof.
  intros Ha Hb Hne Ka Kb. rewrite (convert_by_tokens cm ok v f t a b Ha Hb).
  rewrite (known_token_nonempty a Ka), (known_token_nonempty b Kb).
  apply str_eqb_neq in Hne. rewrite Hne. cbn [negb orb].
  destruct (find _ temperatureFromUnits) eqn:Ff; [|apply find_from_known in Ff; congruence].
  destruct (find _ temperatureToUnits) eqn:Ft; [|apply find_to_known in Ft; congruence].
  reflexivity.
Qed.

(** X11. Converting to the target that [resolveTemperatureTargetUnit]
    gives: with no target (device mode ['none'], or ['follow_system']
    under system target ['none']) the value is returned untouched; a
    value whose unit already normalises to the target is returned
    untouched; every other value in a unit the tables list is converted;
    and a converted result is labelled with exactly the resolved target,
    whose display symbol is the degree sign followed by that letter. *)
Theorem convert_to_resolved_target (cm : CaseMapping) (ok : CaseMappingOk cm)
  (A : Type) (num : Number A)
  (systemConversion : TemperatureConversionTarget)
  (deviceConversion : TemperatureDeviceConversionMode)
  (v : A) (u : unit_arg) :
  let target := resolveTemperatureTargetUnit systemConversion deviceConversion in
  let r := convertTemperatureValue v u (of_option target) in
  (target = None ->
     r = {| value := v; converted := false; unit := C_or_F (normalizeTemperatureUnit u) |})
  /\ (normalizeTemperatureUnit u = target -> converted r = false /\ value r = v)
  /\ (forall a, normalizeTemperatureUnit u = Some a -> known_token a = true ->
                target <> None -> target <> Some a -> converted r = true)
  /\ (converted r = true ->
      unit r = target
      /\ exists x, target = Some x
                   /\ toTemperatureUnitSymbol (of_option (unit r)) = DEGREE :: x).
Proof.
  intros target r.
  pose proof (resolve_normalized cm ok systemConversion deviceConversion) as Hn.
  fold target in Hn. split; [|split; [|split]].
  - intros E. unfold r. rewrite E. unfold convertTemperatureValue. cbv zeta.
    cbn [of_option normalizeTemperatureUnit truthy negb orb]. reflexivity.
  - intros E. unfold r, convertTemperatureValue. cbv zeta. rewrite Hn, E.
    rewrite opt_eqb_refl, orb_true_r. split; reflexivity.
  - intros a Ha Ka Hnone Hne.
    destruct (resolve_values systemConversion deviceConversion) as [E|[E|E]];
      fold target in E; [congruence| |];
      apply (converted_when_known cm ok A num v u (of_option target) a _ Ha
               (eq_trans Hn E));
      try reflexivity; try assumption; intros Ea; apply Hne; rewrite Ea; exact E.
  - intros Hc. pose proof (converted_unit cm A num v u (of_option target) Hc) as Hu.
    fold r in Hu. rewrite Hn in Hu.
    destruct (resolve_values systemConversion deviceConversion) as [E|[E|E]];
      fold target in E.
    + exfalso. unfold r in Hc. rewrite E in Hc. unfold convertTemperatureValue in Hc.
      cbn [of_option normalizeTemperatureUnit truthy negb orb converted] in Hc.
      discriminate Hc.
    + rewrite E in Hu |- *. split; [exact Hu|]. exists (u16 "C"). split; [reflexivity|].
      rewrite Hu. cbn [of_option]. eval_plain cm ok. reflexivity.
    + rewrite E in Hu |- *. split; [exact Hu|]. exists (u16 "F"). split; [reflexivity|].
      rewrite Hu. cbn [of_option]. eval_plain cm ok. reflexivity.
Qed.

Lemma convert_to_resolved_target_witness :
  CaseMappingOk latin1_case
  /\ converted (convertTemperatureValue (cm := latin1_case) 21%float
                  (str (u16 "celsius"))
                  (of_option (resolveTemperatureTargetUnit celsius force_fahrenheit)))
     = true.
Proof.
  split; [exact latin1_case_ok|].
  apply (proj1 (proj2 (proj2 (convert_to_resolved_target latin1_case latin1_case_ok
                                float Number_float celsius force_fahrenheit
                                21%float (str (u16 "celsius")))))
           (u16 "C")).
  - reflexivity.
  - reflexivity.
  - discriminate.
  - discriminate.
Defined.

(** X12. The two option lists offer every value of their type exactly
    once, each under a label of its own, and begin with the default. *)
Theorem option_lists_complete :
  (forall t : TemperatureConversionTarget,
      In t (map fst SYSTEM_TEMPERATURE_CONVERSION_OPTIONS))
  /\ NoDup (map fst SYSTEM_TEMPERATURE_CONVERSION_OPTIONS)
  /\ NoDup (map snd SYSTEM_TEMPERATURE_CONVERSION_OPTIONS)
  /\ hd_error (map fst SYSTEM_TEMPERATURE_CONVERSION_OPTIONS)
     = Some DEFAULT_TEMPERATURE_CONVERSION_TARGET
  /\ (forall m : TemperatureDeviceConversionMode,
        In m (map fst DEVICE_TEMPERATURE_CONVERSION_OPTIONS))
  /\ NoDup (map fst DEVICE_TEMPERATURE_CONVERSION_OPTIONS)
  /\ NoDup (map snd DEVICE_TEMPERATURE_CONVERSION_OPTIONS)
  /\ hd_error (map fst DEVICE_TEMPERATURE_CONVERSION_OPTIONS)
     = Some DEFAULT_TEMPERATURE_DEVICE_CONVERSION_MODE.
Proof.
  repeat split.
  - intros t. destruct t; cbn; auto.
  - repeat (constructor; [cbn; intuition discriminate|]). constructor.
  - repeat (constructor; [cbv; intuition discriminate|]). constructor.
  - intros m. destruct m; cbn; auto.
  - repeat (constructor; [cbn; intuition discriminate|]). constructor.
  - repeat (constructor; [cbv; intuition discriminate|]). constructor.
Qed.

(* ================================================================== *)
(** * The normaliser is not idempotent *)

Lemma latin1_upper_small (c d : N) : In d (latin1_upper c) -> d = c \/ d < 0x400.
Proof.
  unfold latin1_upper.
  destruct ((0x61 <=? c) && (c <=? 0x7A)) eqn:E1;
    [intros [<-|[]]; bool_facts; lia|].
  destruct (c =? 0xB5) eqn:E2; [intros [<-|[]]; lia|].
  destruct (c =? 0xDF) eqn:E3; [intros [<-|[<-|[]]]; lia|].
  destruct (c =? 0xF7) eqn:E4; [intros [<-|[]]; lia|].
  destruct ((0xE0 <=? c) && (c <=? 0xFE)) eqn:E5;
    [intros [<-|[]]; bool_facts; lia|].
  destruct (c =? 0xFF) eqn:E6; [intros [<-|[]]; lia|].
  intros [<-|[]]. lia.
Qed.

Lemma deseret_upper_outside (c : N) :
  ~ (0x10428 <= c <= 0x1044F) -> deseret_upper c = latin1_upper c.
Proof.
  intros H. unfold deseret_upper.
  destruct ((0x10428 <=? c) && (c <=? 0x1044F)) eqn:E; [bool_facts; lia | reflexivity].
Qed.

Lemma deseret_case_ok : CaseMappingOk deseret_case.
Proof.
  pose proof latin1_case_ok as L.
  constructor; cbn [upper_cp toLowerCase deseret_case].
  - intros c Hc. rewrite deseret_upper_outside by lia. exact (@upper_ascii latin1_case L c Hc).
  - reflexivity.
  - intros c d Hd. unfold deseret_upper in Hd.
    destruct ((0x10428 <=? c) && (c <=? 0x1044F)) eqn:E.
    + destruct Hd as [<-|[]]. bool_facts.
      rewrite deseret_upper_outside by lia.
      apply latin1_upper_fixed. unfold latin1_fixed. lia.
    + assert (Hout : ~ (0x10428 <= d <= 0x1044F)).
      { destruct (latin1_upper_small c d Hd) as [->|Hs]; [bool_facts; lia | lia]. }
      rewrite deseret_upper_outside by exact Hout.
      exact (latin1_upper_stable c d Hd).
  - intros c Hc. apply surrogate_range in Hc as Hr.
    rewrite deseret_upper_outside by lia. exact (@upper_surrogate latin1_case L c Hc).
  - intros c Hc. unfold deseret_upper.
    destruct ((0x10428 <=? c) && (c <=? 0x1044F)) eqn:E.
    + exists (c - 0x28). split; [left; reflexivity|]. bool_facts. lia.
    + exact (@upper_astral latin1_case L c Hc).
  - exact latin1_lower_ascii.
Qed.

(** X13. Normalising twice is not always normalising once.  A degree
    sign between a lone high and a lone low surrogate is removed after
    upper-casing, which joins the two into one supplementary code point;
    when that code point has an upper case, as the Deseret small letter
    U+10428 has in Unicode, the token normalises to a different token. *)
Theorem normalize_not_idempotent (cm : CaseMapping) (ok : CaseMappingOk cm) :
  upper_cp 0x10428 = [0x10400] ->
  normalizeTemperatureUnit (str [0xD801; DEGREE; 0xDC28]) = Some [0xD801; 0xDC28]
  /\ normalizeTemperatureUnit (str [0xD801; 0xDC28]) = Some [0xD801; 0xDC00]
  /\ normalizeTemperatureUnit
       (of_option (normalizeTemperatureUnit (str [0xD801; DEGREE; 0xDC28])))
     <> normalizeTemperatureUnit (str [0xD801; DEGREE; 0xDC28]).
Proof.
  intros HD.
  assert (U1 : toUpperCase [0xD801; DEGREE; 0xDC28] = [0xD801; DEGREE; 0xDC28]).
  { unfold toUpperCase.
    change (code_points [0xD801; DEGREE; 0xDC28]) with [0xD801; DEGREE; 0xDC28].
    cbn [flat_map].
    rewrite (upper_surrogate 0xD801) by reflexivity.
    rewrite (upper_surrogate 0xDC28) by reflexivity.
    rewrite upper_degree. reflexivity. }
  assert (U2 : toUpperCase [0xD801; 0xDC28] = [0xD801; 0xDC00]).
  { unfold toUpperCase.
    change (code_points [0xD801; 0xDC28]) with [0x10428].
    cbn [flat_map]. rewrite HD. reflexivity. }
  assert (N1 : normalizeTemperatureUnit (str [0xD801; DEGREE; 0xDC28])
               = Some [0xD801; 0xDC28]).
  { rewrite normalize_str. unfold transformed. rewrite U1. reflexivity. }
  assert (N2 : normalizeTemperatureUnit (str [0xD801; 0xDC28]) = Some [0xD801; 0xDC00]).
  { rewrite normalize_str. unfold transformed. rewrite U2. reflexivity. }
  split; [exact N1|]. split; [exact N2|].
  rewrite N1. cbn [of_option]. rewrite N2. discriminate.
Qed.

Lemma normalize_not_idempotent_witness :
  CaseMappingOk deseret_case
  /\ normalizeTemperatureUnit (cm := deseret_case) (str [0xD801; 0xDC28])
     = Some [0xD801; 0xDC00].
Proof.
  split; [exact deseret_case_ok|].
  exact (proj1 (proj2 (normalize_not_idempotent deseret_case deseret_case_ok eq_refl))).
Defined.

(* ================================================================== *)
(** * There and back between any two units *)

Section RoundTrip.

Context (cm : CaseMapping) (ok : CaseMappingOk cm).
Context {A : Type} {num : Number A}.

Lemma converted_only_when_known (v : A) (f t : unit_arg) :
  converted (convertTemperatureValue v f t) = true ->
  exists a b,
    normalizeTemperatureUnit f = Some a /\ normalizeTemperatureUnit t = Some b
    /\ a <> b /\ known_token a = true /\ known_token b = true.
Proof.
  destruct (normalizeTemperatureUnit f) as [a|] eqn:Ha;
    [destruct (normalizeTemperatureUnit t) as [b|] eqn:Hb|].
  - rewrite (convert_by_tokens cm ok v f t a b Ha Hb).
    destruct (_ || _) eqn:G; [cbn [converted]; discriminate|].
    apply orb_false_iff in G as [_ G]. apply str_eqb_neq in G.
    destruct (find _ temperatureFromUnits) eqn:Ff; [|cbn [converted]; discriminate].
    destruct (find _ temperatureToUnits) eqn:Ft; [|cbn [converted]; discriminate].
    intros _. exists a, b. repeat split; try assumption.
    + destruct (known_token a) eqn:K; [reflexivity|].
      apply (find_from_known (A := A)) in K. congruence.
    + destruct (known_token b) eqn:K; [reflexivity|].
      apply (find_to_known (A := A)) in K. congruence.
  - unfold convertTemperatureValue. cbv zeta. rewrite Ha, Hb.
    cbn [truthy negb orb converted]. discriminate.
  - unfold convertTemperatureValue. cbv zeta. rewrite Ha.
    cbn [truthy negb]. rewrite orb_true_r. cbn [orb converted]. discriminate.
Qed.

(** A conversion between two listed tokens, by the family of each. *)
Lemma convert_known (v : A) (f t : unit_arg) (a b : jsstring) :
  normalizeTemperatureUnit f = Some a -> normalizeTemperatureUnit t = Some b ->
  a <> b -> known_token a = true -> known_token b = true ->
  convertTemperatureValue v f t
  = {| value := out_of_celsius b (into_celsius a v);
       converted := true;
       unit := C_or_F (Some b) |}.
Proof.
  intros Ha Hb Hne Ka Kb. rewrite (convert_by_tokens cm ok v f t a b Ha Hb).
  rewrite (known_token_nonempty a Ka), (known_token_nonempty b Kb).
  apply str_eqb_neq in Hne. rewrite Hne. cbn [negb orb].
  unfold temperatureFromUnits, temperatureToUnits, into_celsius, out_of_celsius.
  cbn [find units out_units]. unfold known_token in Ka, Kb.
  destruct (includes CELSIUS_UNITS a); destruct (includes CELSIUS_UNITS b);
    cbn [orb] in Ka, Kb; rewrite ?Ka, ?Kb; reflexivity.
Qed.

End RoundTrip.

Lemma round_trip_by_family (a b : jsstring) (v : Qc) :
  out_of_celsius a (into_celsius b (out_of_celsius b (into_celsius a v))) = v.
Proof.
  unfold out_of_celsius, into_celsius.
  destruct (includes CELSIUS_UNITS a); destruct (includes CELSIUS_UNITS b);
    cbn [nadd nsub nmul ndiv nlit Number_Qc].
  - reflexivity.
  - apply pivot_C_F_C.
  - apply pivot_F_C_F.
  - rewrite pivot_C_F_C. apply pivot_F_C_F.
Qed.

(** X14. Whenever a conversion from one unit to another takes place, the
    conversion back takes place as well, and in exact arithmetic it
    returns the original value; this holds for every pair of unit
    labels, not only for ['C'] and ['F']. *)
Theorem convert_back_and_forth (cm : CaseMapping) (ok : CaseMappingOk cm)
  (fromUnit toUnit : unit_arg) (v : Qc) :
  converted (convertTemperatureValue v fromUnit toUnit) = true ->
  converted (convertTemperatureValue
               (value (convertTemperatureValue v fromUnit toUnit)) toUnit fromUnit) = true
  /\ value (convertTemperatureValue
              (value (convertTemperatureValue v fromUnit toUnit)) toUnit fromUnit) = v.
Proof.
  intros Hc.
  destruct (converted_only_when_known cm ok v fromUnit toUnit Hc)
    as (a & b & Ha & Hb & Hne & Ka & Kb).
  assert (Hne' : b <> a) by congruence.
  rewrite (convert_known cm ok v fromUnit toUnit a b Ha Hb Hne Ka Kb). cbn [value].
  rewrite (convert_known cm ok _ toUnit fromUnit b a Hb Ha Hne' Kb Ka). cbn [value converted].
  split; [reflexivity | apply round_trip_by_family].
Qed.

Lemma convert_back_and_forth_witness :
  CaseMappingOk latin1_case
  /\ value (convertTemperatureValue (cm := latin1_case)
              (value (convertTemperatureValue (cm := latin1_case) (rational 72)
                        (str (u16 "degrees fahrenheit")) (str (u16 "celsius"))))
              (str (u16 "celsius")) (str (u16 "degrees fahrenheit")))
     = rational 72.
Proof.
  split; [exact latin1_case_ok|].
  apply (convert_back_and_forth latin1_case latin1_case_ok
           (str (u16 "degrees fahrenheit")) (str (u16 "celsius")) (rational 72)).
  reflexivity.
Defined.

(* ================================================================== *)
(** * Attribute names in another case *)

Lemma measuredValue_case_variants :
  str_eqb (map ascii_upper (u16 "measuredValue")) (u16 "measuredValue") = false
  /\ str_eqb (map ascii_lower (u16 "measuredValue")) (u16 "measuredValue") = false.
Proof. split; reflexivity. Qed.

Lemma thermostat_case_variants (a : jsstring) :
  In a THERMOSTAT_ATTRIBUTES ->
  includes THERMOSTAT_ATTRIBUTES (map ascii_upper a) = false
  /\ includes THERMOSTAT_ATTRIBUTES (map ascii_lower a) = false.
Proof.
  intros Ha.
  assert (T : forallb (fun e => negb (includes THERMOSTAT_ATTRIBUTES (map ascii_upper e))
                                && negb (includes THERMOSTAT_ATTRIBUTES (map ascii_lower e)))
                      THERMOSTAT_ATTRIBUTES = true) by (vm_compute; reflexivity).
  rewrite forallb_forall in T. specialize (T a Ha).
  apply andb_true_iff in T as [T1 T2]. apply negb_true_iff in T1, T2. split; assumption.
Qed.

(** X15. An attribute name is matched letter for letter: for every pair
    that [isTemperatureAttribute] accepts, the same cluster with the
    attribute name in upper case or in lower case is rejected. *)
Theorem attribute_case_variants_rejected (cm : CaseMapping)
  (clusterName attributeName : jsstring) :
  isTemperatureAttribute clusterName attributeName = true ->
  isTemperatureAttribute clusterName (map ascii_upper attributeName) = false
  /\ isTemperatureAttribute clusterName (map ascii_lower attributeName) = false.
Proof.
  unfold isTemperatureAttribute. cbv zeta.
  destruct (str_eqb (toLowerCase clusterName) (u16 "temperaturemeasurement")).
  - intros E. apply str_eqb_eq in E. subst attributeName.
    exact measuredValue_case_variants.
  - destruct (negb (str_eqb (toLowerCase clusterName) (u16 "thermostat")));
      [discriminate|].
    intros E. apply includes_In in E. exact (thermostat_case_variants _ E).
Qed.

Lemma attribute_case_variants_rejected_witness :
  isTemperatureAttribute (cm := latin1_case) (u16 "Thermostat")
    (map ascii_lower (u16 "localTemperature")) = false.
Proof.
  apply (attribute_case_variants_rejected latin1_case (u16 "Thermostat")
           (u16 "localTemperature")).
  reflexivity.
Defined.

(* ================================================================== *)
(** * White space and separators in front of a label *)

Lemma trimEnd_cons_keep (c : code_unit) (rest : jsstring) :
  is_whitespace c = false -> exists r, trimEnd (c :: rest) = c :: r.
Proof.
  intros W. unfold trimEnd. cbn [rev].
  assert (K : forall l, exists l', trimStart (l ++ [c]) = l' ++ [c]).
  { induction l as [|y l IH]; cbn [app trimStart].
    - rewrite W. exists []. reflexivity.
    - destruct (is_whitespace y); [exact IH | exists (y :: l); reflexivity]. }
  destruct (K (rev rest)) as [l' ->]. rewrite rev_app_distr. cbn [rev app].
  exists (rev l'). reflexivity.
Qed.

Section Leading.

Context (cm : CaseMapping) (ok : CaseMappingOk cm).

Lemma toUpperCase_cons_ascii (c : code_unit) (s : jsstring) :
  c < 128 -> toUpperCase (c :: s) = ascii_upper c :: toUpperCase s.
Proof.
  intros Hc. rewrite (toUpperCase_cons_single cm).
  - rewrite (upper_ascii c Hc). cbn [flat_map app]. unfold code_units.
    assert (Hu : ascii_upper c < 0x10000).
    { unfold ascii_upper. destruct (_ && _); lia. }
    apply N.ltb_lt in Hu. rewrite Hu. reflexivity.
  - unfold is_high_surrogate. apply andb_false_iff. left. apply N.leb_gt. lia.
Qed.

(** A leading tab, line feed, vertical tab, form feed or carriage return
    is trimmed away. *)
Lemma transformed_leading_whitespace (w : code_unit) (s : jsstring) :
  0x09 <= w <= 0x0D -> transformed (w :: s) = transformed s.
Proof.
  intros Hw. unfold transformed. rewrite toUpperCase_cons_ascii by lia.
  assert (Eu : ascii_upper w = w).
  { unfold ascii_upper. destruct ((0x61 <=? w) && (w <=? 0x7A)) eqn:E;
      [bool_facts; lia | reflexivity]. }
  rewrite Eu. unfold remove_degree_symbols, underscore_hyphens_and_spaces.
  cbn [filter]. assert (E1 : (w =? DEGREE) = false) by (apply N.eqb_neq; unfold DEGREE; lia).
  rewrite E1. cbn [negb map].
  assert (E2 : (w =? HYPHEN) = false) by (apply N.eqb_neq; unfold HYPHEN; lia).
  assert (E3 : (w =? SPACE) = false) by (apply N.eqb_neq; unfold SPACE; lia).
  rewrite E2, E3. cbn [orb]. unfold trim. cbn [trimStart].
  assert (W : is_whitespace w = true).
  { unfold is_whitespace. rewrite !orb_true_iff. do 10 left.
    apply andb_true_iff. split; apply N.leb_le; lia. }
  rewrite W. reflexivity.
Qed.

(** A leading space, hyphen or underscore stays, as an underscore. *)
Lemma transformed_leading_separator (c : code_unit) (s : jsstring) :
  is_separator c = true -> exists p, transformed (c :: s) = UNDERSCORE :: p.
Proof.
  intros Hc. apply separator_cases in Hc.
  assert (E : underscore_hyphens_and_spaces (remove_degree_symbols (toUpperCase (c :: s)))
              = UNDERSCORE
                  :: underscore_hyphens_and_spaces (remove_degree_symbols (toUpperCase s))).
  { destruct Hc as [-> | [-> | ->]];
      rewrite toUpperCase_cons_ascii by (unfold HYPHEN, SPACE, UNDERSCORE; lia);
      reflexivity. }
  unfold transformed. rewrite E. unfold trim. cbn [trimStart].
  change (is_whitespace UNDERSCORE) with false. cbv iota.
  apply trimEnd_cons_keep. reflexivity.
Qed.

Lemma underscore_first_unknown (p : jsstring) :
  table_or_self (UNDERSCORE :: p) = UNDERSCORE :: p
  /\ known_token (UNDERSCORE :: p) = false.
Proof. split; reflexivity. Qed.

End Leading.

(** X16. White space in front of a label is ignored only when it is not
    a space: a leading tab or line break does not change the token, but
    a leading space (like a leading hyphen or underscore) becomes an
    underscore, the token then starts with an underscore, no table lists
    it, and no conversion from or to such a label ever takes place. *)
Theorem leading_space_is_not_trimmed (cm : CaseMapping) (ok : CaseMappingOk cm) :
  (forall (w : code_unit) (s : jsstring), 0x09 <= w <= 0x0D -> s <> [] ->
     normalizeTemperatureUnit (str (w :: s)) = normalizeTemperatureUnit (str s))
  /\ (forall (c : code_unit) (s : jsstring), is_separator c = true ->
        (exists p, normalizeTemperatureUnit (str (c :: s)) = Some (UNDERSCORE :: p))
        /\ (forall (A : Type) (num : Number A) (v : A) (other : unit_arg),
              converted (convertTemperatureValue v (str (c :: s)) other) = false
              /\ converted (convertTemperatureValue v other (str (c :: s))) = false)).
Proof.
  split.
  - intros w s Hw Hs. rewrite !normalize_str.
    rewrite (transformed_leading_whitespace cm ok w s Hw).
    destruct s; [contradiction | reflexivity].
  - intros c s Hc.
    destruct (transformed_leading_separator cm ok c s Hc) as [p Ep].
    assert (Hn : normalizeTemperatureUnit (str (c :: s)) = Some (UNDERSCORE :: p)).
    { rewrite normalize_str, Ep. reflexivity. }
    split; [exists p; exact Hn|].
    intros A num v other.
    split; (destruct (converted (convertTemperatureValue _ _ _)) eqn:E; [|reflexivity]);
      exfalso;
      destruct (converted_only_when_known cm ok _ _ _ E)
        as (a & b & Ha & Hb & _ & Ka & Kb).
    + rewrite Hn in Ha. injection Ha as <-. discriminate Ka.
    + rewrite Hn in Hb. injection Hb as <-. discriminate Kb.
Qed.

Lemma leading_space_is_not_trimmed_witness :
  CaseMappingOk latin1_case
  /\ normalizeTemperatureUnit (cm := latin1_case) (str (0x09 :: u16 "celsius"))
     = normalizeTemperatureUnit (cm := latin1_case) (str (u16 "celsius")).
Proof.
  split; [exact latin1_case_ok|].
  apply (proj1 (leading_space_is_not_trimmed latin1_case latin1_case_ok)).
  - lia.
  - discriminate.
Defined.
